(** * Currency conversion and return decomposition of the index dashboard

    A shallow embedding of the analytics functions of [script.js]
    ([findClosestRate], [convertDataToCurrency],
    [calculateCurrencyImpactOverTime], [calculateIndexWithoutCurrencyChanges],
    [calculateCurrencyImpact], [calculateVolatility] and the numeric part of
    [updatePerformanceTable]) together with the properties the specification
    states about them.

    JavaScript numbers are IEEE-754 binary64 values.  The functions are
    written once over an interface [Number] of the arithmetic they use; the
    instance [float_Number] is the arithmetic the script runs on
    (primitive binary64 floats, with NaN and the infinities), the instance
    [R_Number] is exact real arithmetic, in which the algebraic identities
    of the specification are read. *)

From Stdlib Require Import ZArith Floats Reals Lra Lia List.
From stdpp Require Import base option list strings gmap.

(** ** Numbers *)

Class Number (num : Type) := {
  (** an integer literal of the script such as [0], [100] or [252], and the
      value of [array.length] *)
  num_lit : Z -> num;
  (** [ToNumber(undefined)]: what arithmetic sees for a missing property *)
  num_nan : num;
  num_add : num -> num -> num;
  num_sub : num -> num -> num;
  num_mul : num -> num -> num;
  num_div : num -> num -> num;
  (** [Math.sqrt] *)
  num_sqrt : num -> num;
  (** [ToBoolean] of a number: [false] exactly for [0], [-0] and [NaN] *)
  num_truthy : num -> bool
}.

Declare Scope num_scope.
Delimit Scope num_scope with num.
Infix "+" := num_add : num_scope.
Infix "-" := num_sub : num_scope.
Infix "*" := num_mul : num_scope.
Infix "/" := num_div : num_scope.

(** Binary64, the arithmetic of the script. Integer literals below 2^53 in
    absolute value are represented exactly. *)
Definition float_lit (z : Z) : float :=
  match z with
  | Z0 => PrimFloat.zero
  | Zpos _ => PrimFloat.of_uint63 (Uint63.of_Z z)
  | Zneg p => PrimFloat.opp (PrimFloat.of_uint63 (Uint63.of_Z (Zpos p)))
  end.

Definition float_truthy (x : float) : bool :=
  negb (PrimFloat.eqb x PrimFloat.zero || PrimFloat.is_nan x).

#[export] Instance float_Number : Number float := {|
  num_lit := float_lit;
  num_nan := PrimFloat.nan;
  num_add := PrimFloat.add;
  num_sub := PrimFloat.sub;
  num_mul := PrimFloat.mul;
  num_div := PrimFloat.div;
  num_sqrt := PrimFloat.sqrt;
  num_truthy := float_truthy
|}.

(** Exact real arithmetic. There is no NaN among the reals; a missing
    property reads as [0], which every statement about this instance
    excludes by asking for non-zero rates where it matters. *)
Definition R_truthy (x : R) : bool :=
  if Req_dec_T x 0%R then false else true.

#[export] Instance R_Number : Number R := {|
  num_lit := IZR;
  num_nan := 0%R;
  num_add := Rplus;
  num_sub := Rminus;
  num_mul := Rmult;
  num_div := Rdiv;
  num_sqrt := sqrt;
  num_truthy := R_truthy
|}.

(** ** Dates

    A [Date] object is its time value, the number of milliseconds since the
    epoch.  [toDateString] prints the local calendar day
    ("Thu Jan 01 1970"): two dates print the same string exactly when their
    local day numbers agree, so the string is represented by that day
    number.  The local time zone adjustment [localTZA] belongs to the host. *)

Definition Date := Z.

Definition msPerDay : Z := 86400000.

Definition toDateString (localTZA : Z -> Z) (d : Date) : Z :=
  ((d + localTZA d) `div` msPerDay)%Z.

(** A host whose local time is UTC. *)
Definition utc : Z -> Z := fun _ => 0%Z.

(** ** Records of the data model *)

Module PricePoint.
Record t (num : Type) := mk {
  date : Date;
  open : num;
  high : num;
  low : num;
  close : num;
  volume : num;
  adjClose : num
}.
Arguments mk {num}.
Arguments date {num}.
Arguments open {num}.
Arguments high {num}.
Arguments low {num}.
Arguments close {num}.
Arguments volume {num}.
Arguments adjClose {num}.
End PricePoint.

Module RateEntry.
Record t (num : Type) := mk { date : Date; rate : num }.
Arguments mk {num}.
Arguments date {num}.
Arguments rate {num}.
End RateEntry.

Module ImpactPoint.
Record t (num : Type) := mk { date : Date; impact : num }.
Arguments mk {num}.
Arguments date {num}.
Arguments impact {num}.
End ImpactPoint.

Module ValuePoint.
Record t (num : Type) := mk { date : Date; value : num }.
Arguments mk {num}.
Arguments date {num}.
Arguments value {num}.
End ValuePoint.

(** One row of the performance table: the three percentages of a period. *)
Module Row.
Record t (num : Type) := mk {
  name : string;
  totalReturn : num;
  currencyImpact : num;
  localReturn : num
}.
Arguments mk {num}.
Arguments name {num}.
Arguments totalReturn {num}.
Arguments currencyImpact {num}.
Arguments localReturn {num}.
End Row.

(** An entry of [indexConfig]. *)
Module IndexInfo.
Record t := mk {
  name : string;
  currency : string;
  inception : string
}.
End IndexInfo.

(** The [indexConfig] object of the script. What a function calls
    [indexInfo] is [indexConfig[symbol]] for the symbol the page has
    selected: an entry of the object, or [undefined] ([None]) for a symbol
    the object has no entry for (a symbol is not the name of a property
    inherited from [Object.prototype]). *)
Definition indexConfig : gmap string IndexInfo.t :=
  {[ "^GSPC" := IndexInfo.mk "S&P 500" "USD" "1957-03-04";
     "^IXIC" := IndexInfo.mk "NASDAQ Composite" "USD" "1971-02-05";
     "^DJI" := IndexInfo.mk "Dow Jones Industrial Average" "USD" "1896-05-26";
     "^RUT" := IndexInfo.mk "Russell 2000" "USD" "1984-01-01";
     "^VIX" := IndexInfo.mk "VIX Volatility Index" "USD" "1990-01-02" ]}.


(** How a call ends: with a value, or with the [TypeError] of reading a
    property of [undefined]. *)
Inductive completion (A : Type) : Type :=
  | Normal (a : A)
  | TypeError.
Arguments Normal {A}.
Arguments TypeError {A}.

(** ** The analytics functions *)

Section Analytics.
Context {num : Type} {N : Number num}.

(** The globals the functions read: the host's time zone, the flat
    [currencyRates] object and the [historicalRates] array. *)
Context (localTZA : Z -> Z).
Context (currencyRates : gmap string num).
Context (historicalRates : list (RateEntry.t num)).

(** [currencyRates[c]] inside an arithmetic expression. *)
Definition rateOf (c : string) : num :=
  default num_nan (currencyRates !! c).

(** [rate.date.toDateString() === d.toDateString()] *)
Definition sameDateString (a b : Date) : bool :=
  bool_decide (toDateString localTZA a = toDateString localTZA b).

(** The loop of [findClosestRate]: the pair is [(closestRate, minDiff)]. *)
Definition closer (targetDate : Date)
    (acc : RateEntry.t num * Z) (rate : RateEntry.t num) : RateEntry.t num * Z :=
  let diff := Z.abs (targetDate - RateEntry.date rate) in
  if (diff <? acc.2)%Z then (rate, diff) else acc.

Definition findClosestRate (targetDate : Date) : num :=
  match historicalRates with
  | [] => (rateOf "NOK" / rateOf "USD")%num
  | first :: _ =>
      match List.find (fun rate => sameDateString (RateEntry.date rate) targetDate)
                      historicalRates with
      | Some exactMatch => RateEntry.rate exactMatch
      | None =>
          let closestRate := first in
          let minDiff := Z.abs (targetDate - RateEntry.date closestRate) in
          RateEntry.rate (fold_left (closer targetDate) historicalRates
                                    (closestRate, minDiff)).1
      end
  end.

(** [data[i].close] for an index inside the array; every use below is
    inside the array (see [closeAt_lookup]). *)
Definition closeAt (data : list (PricePoint.t num)) (i : nat) : num :=
  from_option PricePoint.close num_nan (data !! i).

Definition calculateCurrencyImpactOverTime (data : list (PricePoint.t num))
    (targetCurrency sourceCurrency : string) : list (ImpactPoint.t num) :=
  if decide (targetCurrency = sourceCurrency) then
    map (fun item => ImpactPoint.mk (PricePoint.date item) (num_lit 0)) data
  else
    (* Use current exchange rate for currency impact calculation *)
    let currentRate := (rateOf targetCurrency / rateOf sourceCurrency)%num in
    imap (fun index item =>
      if decide (index = 0) then
        ImpactPoint.mk (PricePoint.date item) (num_lit 0)
      else
        (* Get previous day's data *)
        let prevClose := closeAt data (index - 1) in
        (* computed by the script and not used *)
        let localReturn := ((PricePoint.close item - prevClose) / prevClose)%num in
        let currentValueInTarget := (PricePoint.close item * currentRate)%num in
        let prevValueInTarget := (prevClose * currentRate)%num in
        let currencyImpact :=
          ((currentValueInTarget - prevValueInTarget)
           - (PricePoint.close item - prevClose))%num in
        ImpactPoint.mk (PricePoint.date item) currencyImpact) data.

(** The object literal [{...item, open: item.open * rate, ...}]: the five
    price fields are overwritten, every other property is copied. *)
Definition scaled (rate : num) (item : PricePoint.t num) : PricePoint.t num :=
  {| PricePoint.date := PricePoint.date item;
     PricePoint.open := (PricePoint.open item * rate)%num;
     PricePoint.high := (PricePoint.high item * rate)%num;
     PricePoint.low := (PricePoint.low item * rate)%num;
     PricePoint.close := (PricePoint.close item * rate)%num;
     PricePoint.volume := PricePoint.volume item;
     PricePoint.adjClose := (PricePoint.adjClose item * rate)%num |}.

(** [index === 0 && startRateOverride]: the override is [null] ([None]) or a
    number, which counts when it is truthy. *)
Definition useOverride (index : nat) (startRateOverride : option num) : option num :=
  match startRateOverride with
  | Some r => if bool_decide (index = 0) && num_truthy r then Some r else None
  | None => None
  end.

Definition convertDataToCurrency (data : list (PricePoint.t num))
    (targetCurrency sourceCurrency : string) (startRateOverride : option num)
    : list (PricePoint.t num) :=
  if decide (targetCurrency = sourceCurrency) then data
  else if bool_decide (0 < length historicalRates)
          && bool_decide (targetCurrency = "NOK")
          && bool_decide (sourceCurrency = "USD") then
    imap (fun index item =>
      let rate :=
        match useOverride index startRateOverride with
        | Some r => r
        | None => findClosestRate (PricePoint.date item)
        end in
      scaled rate item) data
  else
    (* Fallback to current rate *)
    let conversionRate := (rateOf targetCurrency / rateOf sourceCurrency)%num in
    map (scaled conversionRate) data.

Definition calculateIndexWithoutCurrencyChanges (data : list (PricePoint.t num))
    (targetCurrency sourceCurrency : string) : completion (list (ValuePoint.t num)) :=
  if bool_decide (length historicalRates = 0) then Normal []
  else
    match data !! 0 with
    | None => TypeError
    | Some first =>
        let startDate := PricePoint.date first in
        match List.find (fun rate => sameDateString (RateEntry.date rate) startDate)
                        historicalRates with
        | None => Normal []
        | Some startRateData =>
            let startRate := RateEntry.rate startRateData in
            Normal (map (fun item =>
                      ValuePoint.mk (PricePoint.date item)
                                    (PricePoint.close item * startRate)%num) data)
        end
    end.

Definition calculateCurrencyImpact (data : list (PricePoint.t num))
    (targetCurrency sourceCurrency : string) : completion num :=
  if decide (targetCurrency = sourceCurrency) then Normal (num_lit 0)
  else
    let currencyImpactData :=
      calculateCurrencyImpactOverTime data targetCurrency sourceCurrency in
    let totalCurrencyImpact :=
      fold_left (fun sum item => (sum + ImpactPoint.impact item)%num)
                currencyImpactData (num_lit 0) in
    match data !! 0 with
    | None => TypeError
    | Some first =>
        let startValueInCurrency :=
          (PricePoint.close first
           * (rateOf targetCurrency / rateOf sourceCurrency))%num in
        let currencyImpactPercent :=
          ((totalCurrencyImpact / startValueInCurrency) * num_lit 100)%num in
        Normal currencyImpactPercent
    end.

(** [returns.length] as a number *)
Definition lengthOf {A} (l : list A) : num := num_lit (Z.of_nat (length l)).

(** The [for] loop of [calculateVolatility], [i] running from [1] to
    [data.length - 1], each turn pushing one return. *)
Definition dailyReturns (data : list (PricePoint.t num)) : list num :=
  fold_left (fun returns i =>
               let dailyReturn :=
                 ((closeAt data i - closeAt data (i - 1)) / closeAt data (i - 1))%num in
               returns ++ [dailyReturn])
            (seq 1 (length data - 1)) [].

(** [Math.pow(x, 2)] *)
Definition pow2 (x : num) : num := (x * x)%num.

Definition calculateVolatility (data : list (PricePoint.t num)) : num :=
  let returns := dailyReturns data in
  let mean :=
    (fold_left (fun sum ret => (sum + ret)%num) returns (num_lit 0)
     / lengthOf returns)%num in
  let variance :=
    (fold_left (fun sum ret => (sum + pow2 (ret - mean))%num) returns (num_lit 0)
     / lengthOf returns)%num in
  let stdDev := num_sqrt variance in
  (* Annualized volatility (assuming 252 trading days) *)
  (stdDev * num_sqrt (num_lit 252) * num_lit 100)%num.

(** [array.slice(start, stop)] for indices inside the array *)
Definition slice {A} (l : list A) (start stop : nat) : list A :=
  take (stop - start) (drop start l).

Definition periods : list (string * Z) :=
  [("1 Week", 7%Z); ("1 Month", 30%Z); ("3 Months", 90%Z);
   ("6 Months", 180%Z); ("1 Year", 365%Z)].

(** One turn of [periods.forEach] in [updatePerformanceTable]: the three
    percentages of the row it appends, or no row. *)
Definition periodRow (currentData convertedData : list (PricePoint.t num))
    (selectedCurrency indexCurrency : string) (period : string * Z)
    : completion (option (Row.t num)) :=
  let endIndex := (Z.of_nat (length convertedData) - 1)%Z in
  let startIndex := Z.max 0 (endIndex - period.2) in
  if (startIndex <? endIndex)%Z then
    let startPrice := closeAt convertedData (Z.to_nat startIndex) in
    let endPrice := closeAt convertedData (Z.to_nat endIndex) in
    let totalReturn := (((endPrice - startPrice) / startPrice) * num_lit 100)%num in
    match calculateCurrencyImpact
            (slice currentData (Z.to_nat startIndex) (Z.to_nat (endIndex + 1)))
            selectedCurrency indexCurrency with
    | TypeError => TypeError
    | Normal currencyImpact =>
        let localReturn := (totalReturn - currencyImpact)%num in
        Normal (Some (Row.mk period.1 totalReturn currencyImpact localReturn))
    end
  else Normal None.

(** The rows [updatePerformanceTable] appends to the table body, in order
    (the inception row carries no number and is left out). [currentData] is
    [None] for [null], otherwise its [data] array; [indexInfo] is
    [indexConfig[symbol]], whose [currency] the function reads without a
    guard once there is data. *)
Definition updatePerformanceTable (currentData : option (list (PricePoint.t num)))
    (selectedCurrency : string) (indexInfo : option IndexInfo.t)
    : completion (list (Row.t num)) :=
  match currentData with
  | None => Normal []
  | Some data =>
      if bool_decide (length data = 0) then Normal []
      else
        match indexInfo with
        | None => TypeError
        | Some info =>
            let indexCurrency := IndexInfo.currency info in
            let convertedData :=
              convertDataToCurrency data selectedCurrency indexCurrency None in
            fold_left (fun tbody period =>
                         match tbody with
                         | TypeError => TypeError
                         | Normal rows =>
                             match periodRow data convertedData selectedCurrency
                                             indexCurrency period with
                             | TypeError => TypeError
                             | Normal None => Normal rows
                             | Normal (Some row) => Normal (rows ++ [row])
                             end
                         end)
                      periods (Normal [])
        end
  end.

End Analytics.

(** ** Arrays and objects in the heap

    [convertDataToCurrency] receives a reference to an array of references
    to point objects.  To say what it does to the objects it was given, the
    function is written a second time over a heap: [array.map] reads each
    element, the object literal of the callback allocates a new object, and
    the result is a new array; the first branch returns the reference it was
    given. Nothing in the function assigns to a property. *)

Section Heap.
Context {num : Type} {N : Number num}.
Context (localTZA : Z -> Z).
Context (currencyRates : gmap string num).
Context (historicalRates : list (RateEntry.t num)).

Definition ref := nat.

Inductive object : Type :=
  | Point (p : PricePoint.t num)
  | Array (elems : list ref).

(** The heap is the list of its objects: an address is a position, and
    allocation appends. *)
Abbreviation heap := (list object) (only parsing).

Definition alloc (o : object) (h : heap) : ref * heap := (length h, h ++ [o]).

Definition readPoint (h : heap) (r : ref) : option (PricePoint.t num) :=
  match h !! r with
  | Some (Point p) => Some p
  | _ => None
  end.

Definition readArray (h : heap) (r : ref) : option (list ref) :=
  match h !! r with
  | Some (Array elems) => Some elems
  | _ => None
  end.

(** The elements of [array.map(callback)], left to right; [None] when an
    element is not a point object. *)
Fixpoint mapElems (callback : nat -> PricePoint.t num -> PricePoint.t num)
    (elems : list ref) (h : heap) : option (list ref * heap) :=
  match elems with
  | [] => Some ([], h)
  | r :: rest =>
      match readPoint h r with
      | None => None
      | Some item =>
          let '(r', h1) := alloc (Point (callback 0 item)) h in
          match mapElems (fun index => callback (S index)) rest h1 with
          | None => None
          | Some (rs, h2) => Some (r' :: rs, h2)
          end
      end
  end.

Definition arrayMap (callback : nat -> PricePoint.t num -> PricePoint.t num)
    (array : ref) (h : heap) : option (ref * heap) :=
  match readArray h array with
  | None => None
  | Some elems =>
      match mapElems callback elems h with
      | None => None
      | Some (rs, h1) => Some (alloc (Array rs) h1)
      end
  end.

Definition convertDataToCurrency_heap (data : ref)
    (targetCurrency sourceCurrency : string) (startRateOverride : option num)
    (h : heap) : option (ref * heap) :=
  if decide (targetCurrency = sourceCurrency) then Some (data, h)
  else if bool_decide (0 < length historicalRates)
          && bool_decide (targetCurrency = "NOK")
          && bool_decide (sourceCurrency = "USD") then
    arrayMap (fun index item =>
      let rate :=
        match useOverride index startRateOverride with
        | Some r => r
        | None => findClosestRate localTZA currencyRates historicalRates
                                  (PricePoint.date item)
        end in
      scaled rate item) data h
  else
    let conversionRate := (rateOf currencyRates targetCurrency
                           / rateOf currencyRates sourceCurrency)%num in
    arrayMap (fun _ item => scaled conversionRate item) data h.

(** The array at [array] holds, in order, the points [points]. *)
Definition pointsAt (h : heap) (array : ref) (points : list (PricePoint.t num)) : Prop :=
  exists elems, readArray h array = Some elems /\
                Forall2 (fun r p => readPoint h r = Some p) elems points.

End Heap.

(** ** Notions the statements use *)

Section LookupNotions.
Context {num : Type}.

Implicit Types (table : list (RateEntry.t num)) (e : RateEntry.t num).

(** Distance in time between the query and an entry, as
    [Math.abs(targetDate - rate.date)] computes it. *)
Definition dist (targetDate : Date) e : Z :=
  Z.abs (targetDate - RateEntry.date e).

(** Entries in ascending order of date, the order in which
    [loadHistoricalExchangeRates] leaves them. *)
Definition ascending table : Prop :=
  forall i j a b, table !! i = Some a -> table !! j = Some b -> i <= j ->
    (RateEntry.date a <= RateEntry.date b)%Z.

(** The running minimum of the loop: once the first [upto] entries have
    been visited, the entry [e] at position [ib] is the first of them at
    least distance from the query. *)
Definition firstNearest (targetDate : Date) table (upto : nat) (ib : nat) e : Prop :=
  table !! ib = Some e /\
  forall j e', j < upto -> table !! j = Some e' ->
    (dist targetDate e <= dist targetDate e')%Z /\
    (dist targetDate e' = dist targetDate e -> ib <= j).

End LookupNotions.

(** The wording of the specification for four operations. These
    definitions follow the specification, not the script; they are what the
    script is compared with. *)

Section SpecWording.
Context {num : Type} {N : Number num}.
Context (localTZA : Z -> Z).
Context (currencyRates : gmap string num).
Context (table : list (RateEntry.t num)).

(** "Let startRate = lookup(table, points[0].date). For every point i:
    fixedRateValue[i] = close[i] * startRate." *)
Definition spec_fixedRateSeries (data : list (PricePoint.t num)) : list (ValuePoint.t num) :=
  match data with
  | [] => []
  | first :: _ =>
      let startRate :=
        findClosestRate localTZA currencyRates table (PricePoint.date first) in
      map (fun item => ValuePoint.mk (PricePoint.date item)
                         (PricePoint.close item * startRate)%num) data
  end.

(** "Exact match by calendar date (ignoring time-of-day) returns that
    rate. Otherwise, return the entry whose date has the minimum absolute
    difference to date; ties broken by earliest date", the difference being
    the "absolute day-distance" of the testable properties. *)
Definition spec_dayDistance (d : Date) (e : RateEntry.t num) : Z :=
  Z.abs (toDateString localTZA d - toDateString localTZA (RateEntry.date e)).

Definition spec_nearer (d : Date) (best e : RateEntry.t num) : RateEntry.t num :=
  if (spec_dayDistance d e <? spec_dayDistance d best)%Z then e
  else if (spec_dayDistance d e =? spec_dayDistance d best)%Z
          && (RateEntry.date e <? RateEntry.date best)%Z then e
  else best.

Definition spec_lookup (d : Date) : option num :=
  match table with
  | [] => None
  | first :: rest =>
      match List.find (fun e => sameDateString localTZA (RateEntry.date e) d) table with
      | Some exactMatch => Some (RateEntry.rate exactMatch)
      | None => Some (RateEntry.rate (fold_left (spec_nearer d) rest first))
      end
  end.



End SpecWording.

Section Statistics.
Context {num : Type} {N : Number num}.

Implicit Types (data : list (PricePoint.t num)) (l : list num).

(** The statistics in the words of the specification: the day-over-day
    simple returns of a close series, and the standard deviation of a list
    with divisor [n] (population) or [n - 1] (sample). *)
Definition sum l : num := fold_left num_add l (num_lit 0).

Definition simpleReturns (closes : list num) : list num :=
  zip_with (fun prev cur => ((cur - prev) / prev)%num) closes (tail closes).

Definition meanOf l : num := (sum l / lengthOf l)%num.

Definition squaredDeviations l : list num :=
  map (fun x => pow2 (x - meanOf l)%num) l.

Definition populationStdDev l : num :=
  num_sqrt (sum (squaredDeviations l) / lengthOf l)%num.

Definition sampleStdDev l : num :=
  num_sqrt (sum (squaredDeviations l) / num_lit (Z.of_nat (length l) - 1))%num.

Definition annualizedPct (stdDev : list num -> num) data : num :=
  (stdDev (simpleReturns (map PricePoint.close data))
   * num_sqrt (num_lit 252) * num_lit 100)%num.

End Statistics.

(** Binary64 values that are a zero ([0] or [-0]), and values that are not
    finite numbers. *)
Definition isZero (x : float) : Prop := PrimFloat.eqb x 0%float = true.

Definition notFinite (x : float) : Prop :=
  x = infinity \/ x = neg_infinity \/ x = nan.

(** ** Sample data *)

Definition day (n : Z) : Date := (n * msPerDay)%Z.

Definition fp (date : Date) (close : float) : PricePoint.t float :=
  PricePoint.mk date close close close close 1000%float close.

Definition rp (date : Date) (close : R) : PricePoint.t R :=
  PricePoint.mk date close close close close 1000%R close.

Definition rates_usd_nok : gmap string float :=
  {[ "USD" := 1%float; "NOK" := 10%float ]}.

(** The rates the script falls back to when the currency feeds fail. *)
Definition fallbackRates : gmap string float :=
  {[ "USD" := 1%float; "NOK" := 10.5%float ]}.

Definition rates_R : gmap string R :=
  {[ "USD" := 1%R; "NOK" := 10%R ]}.

Definition table_gap : list (RateEntry.t float) :=
  [RateEntry.mk (day 0) 10%float; RateEntry.mk (day 2) 12%float].

Definition closes2 : list (PricePoint.t float) :=
  [fp (day 0) 100%float; fp (day 1) 110%float].

Definition closes2_R : list (PricePoint.t R) :=
  [rp (day 0) 100%R; rp (day 1) 110%R].

(** The series of the volatility scenario: closes 100, 102, 101, 103. *)
Definition closes4 : list (PricePoint.t float) :=
  [fp (day 0) 100%float; fp (day 1) 102%float; fp (day 2) 101%float; fp (day 3) 103%float].

(** A series that starts at a zero close. *)
Definition zero_start : list (PricePoint.t float) :=
  [fp (day 0) 0%float; fp (day 1) 110%float].



(** Half past one in the afternoon of day 1, the time of day of a price
    point; the entries of a rate table are at midnight. *)
Definition afternoon_of_day1 : Date := (day 1 + 13 * 3600000 + 30 * 60000)%Z.

(** The entry of [indexConfig] for the S&P 500. *)
Definition sp500 : IndexInfo.t := IndexInfo.mk "S&P 500" "USD" "1957-03-04".

(** A heap holding the two points of [closes2] and, at address 2, the array
    of them. *)
Definition heap2 : list (@object float) :=
  [Point (fp (day 0) 100%float); Point (fp (day 1) 110%float); Array [0; 1]].

(** * The rest of the script

    The functions around the analytics: the request limiter, the cache, the
    market clock, the preparation of the price feed, the statistics boxes,
    the chart's series and the live price update. *)

(** ** The request limiter and the cache

    Times are the milliseconds of [Date.now()] and counters are whole
    numbers; both are integers that a JavaScript number holds exactly, so
    they are in [Z]. *)

Module RateLimiter.
Record t := mk {
  requests : Z;
  lastReset : Z;
  maxRequests : Z;
  resetInterval : Z
}.
End RateLimiter.

(** The limiter as the script starts it at time [startup]. *)
Definition rateLimiter0 (startup : Z) : RateLimiter.t :=
  RateLimiter.mk 0 startup 1800 3600000.

(** [checkRateLimit()] at time [now = Date.now()]: the answer and the
    limiter it leaves. *)
Definition checkRateLimit (now : Z) (rateLimiter : RateLimiter.t) : bool * RateLimiter.t :=
  (* Reset counter if hour has passed *)
  let rateLimiter :=
    if (now - RateLimiter.lastReset rateLimiter >? RateLimiter.resetInterval rateLimiter)%Z
    then RateLimiter.mk 0 now (RateLimiter.maxRequests rateLimiter)
                        (RateLimiter.resetInterval rateLimiter)
    else rateLimiter in
  (* Check if we're at the limit *)
  if (RateLimiter.requests rateLimiter >=? RateLimiter.maxRequests rateLimiter)%Z
  then (false, rateLimiter)
  else (true, RateLimiter.mk (RateLimiter.requests rateLimiter + 1)
                             (RateLimiter.lastReset rateLimiter)
                             (RateLimiter.maxRequests rateLimiter)
                             (RateLimiter.resetInterval rateLimiter)).

(** Calls of [checkRateLimit] one after the other, at the given times: the
    answers in order and the limiter left. *)
Fixpoint checkRateLimits (times : list Z) (rateLimiter : RateLimiter.t)
    : list bool * RateLimiter.t :=
  match times with
  | [] => ([], rateLimiter)
  | now :: later =>
      let '(answer, rateLimiter1) := checkRateLimit now rateLimiter in
      let '(answers, rateLimiter2) := checkRateLimits later rateLimiter1 in
      (answer :: answers, rateLimiter2)
  end.

(** An entry of [cache]; a property that is [null] or was never written
    (as in [financialData: {}]) is [None]. The keys of the map are the
    object's own property names ([__proto__], which an assignment does not
    store as a property, is not a key), and the data stored has no
    [timestamp] or [duration] of its own. *)
Module CacheEntry.
Record t (D : Type) := mk {
  data : option D;
  timestamp : option Z;
  duration : option Z
}.
Arguments mk {D}.
Arguments data {D}.
Arguments timestamp {D}.
Arguments duration {D}.
End CacheEntry.

Section Cache.
Context {D : Type}.

(** The [cache] object as the script declares it. *)
Definition cache0 : gmap string (CacheEntry.t D) :=
  {[ "currencyRates" := CacheEntry.mk None (Some 0%Z) (Some 300000%Z);
     "marketOverview" := CacheEntry.mk None (Some 0%Z) (Some 60000%Z);
     "financialData" := CacheEntry.mk None None None ]}.

(** [getCachedData(key)] at time [now]; [None] is [null]. A comparison
    with an [undefined] side is false. *)
Definition getCachedData (key : string) (now : Z)
    (cache : gmap string (CacheEntry.t D)) : option D :=
  match cache !! key with
  | Some cached =>
      match CacheEntry.timestamp cached, CacheEntry.duration cached with
      | Some timestamp, Some duration =>
          if (now - timestamp <? duration)%Z then CacheEntry.data cached else None
      | _, _ => None
      end
  | None => None
  end.

(** [cache[key]?.duration || 300000] *)
Definition durationFor (key : string) (cache : gmap string (CacheEntry.t D)) : Z :=
  match cache !! key with
  | Some cached =>
      match CacheEntry.duration cached with
      | Some duration => if (duration =? 0)%Z then 300000%Z else duration
      | None => 300000%Z
      end
  | None => 300000%Z
  end.

(** [setCachedData(key, data)] at time [now]. *)
Definition setCachedData (key : string) (data : option D) (now : Z)
    (cache : gmap string (CacheEntry.t D)) : gmap string (CacheEntry.t D) :=
  <[ key := CacheEntry.mk data (Some now) (Some (durationFor key cache)) ]> cache.

End Cache.

(** ** The market clock *)

Module MarketStatus.
Record t := mk {
  us : bool;
  europe : bool;
  asia : bool;
  australia : bool;
  middleEast : bool
}.
End MarketStatus.

(** [isMarketOpen()] when the local clock shows weekday number [day]
    ([getDay()], 0 for Sunday), [hour] and [minute]. *)
Definition isMarketOpen (day hour minute : Z) : bool :=
  let time := (hour * 100 + minute)%Z in
  if (day =? 0)%Z || (day =? 6)%Z then false
  else
    let isUSMarket := (time >=? 930)%Z && (time <=? 1600)%Z in
    let isEuropeanMarket := (time >=? 900)%Z && (time <=? 1730)%Z in
    let isAsianMarket := (time >=? 900)%Z && (time <=? 1500)%Z in
    let isAustralianMarket := (time >=? 1000)%Z && (time <=? 1600)%Z in
    let isMiddleEastMarket := (time >=? 1000)%Z && (time <=? 1500)%Z in
    isUSMarket || isEuropeanMarket || isAsianMarket || isAustralianMarket
    || isMiddleEastMarket.

Definition getMarketStatus (day hour minute : Z) : MarketStatus.t :=
  let time := (hour * 100 + minute)%Z in
  if negb (day =? 0)%Z && negb (day =? 6)%Z then
    MarketStatus.mk ((time >=? 930)%Z && (time <=? 1600)%Z)
                    ((time >=? 900)%Z && (time <=? 1730)%Z)
                    ((time >=? 900)%Z && (time <=? 1500)%Z)
                    ((time >=? 1000)%Z && (time <=? 1600)%Z)
                    ((time >=? 1000)%Z && (time <=? 1500)%Z)
  else MarketStatus.mk false false false false false.

(** ** Sorting by date

    [array.sort((a, b) => a.date - b.date)]. The engine's sort is stable, so
    for this comparator its result is the list of the same elements in
    ascending order of date in which elements of equal date keep their
    order; insertion from the right computes that list. *)

Section SortByDate.
Context {X : Type} (date : X -> Date).

Fixpoint insertByDate (x : X) (sorted : list X) : list X :=
  match sorted with
  | [] => [x]
  | y :: rest =>
      if (date y <? date x)%Z then y :: insertByDate x rest else x :: y :: rest
  end.

Fixpoint sortByDate (l : list X) : list X :=
  match l with
  | [] => []
  | x :: rest => insertByDate x (sortByDate rest)
  end.

(** A list in ascending order of date: by positions, and the same thing
    said along the list. *)
Definition ascendingBy (l : list X) : Prop :=
  forall i j a b, l !! i = Some a -> l !! j = Some b -> i <= j ->
    (date a <= date b)%Z.

Fixpoint orderedBy (l : list X) : Prop :=
  match l with
  | [] => True
  | x :: rest => Forall (fun y => (date x <= date y)%Z) rest /\ orderedBy rest
  end.

End SortByDate.

(** ** Preparing the price feed *)

(** The arrays of [result.indicators.quote[0]]; an element is a number or
    [null] ([None]). *)
Module Quote.
Record t := mk {
  open : list (option float);
  high : list (option float);
  low : list (option float);
  close : list (option float);
  volume : list (option float)
}.
End Quote.

(** [array[index]]: [None] for [null] and for [undefined] (an index outside
    the array), which the script treats alike. *)
Definition elementAt (array : list (option float)) (index : nat) : option float :=
  mjoin (array !! index).

(** The callback of [timestamps.map] in [processFinancialData]; the fields
    of the point it builds may be [null]. *)
Definition rawPoint (quotes : Quote.t) (adjClose : list (option float))
    (index : nat) (timestamp : Z) : PricePoint.t (option float) :=
  let date := (timestamp * 1000)%Z in
  let closePrice := elementAt (Quote.close quotes) index in
  let adjClosePrice := elementAt adjClose index in
  (* Use adjusted close price if available, otherwise use regular close *)
  let finalClose :=
    match adjClosePrice with
    | Some _ => adjClosePrice
    | None => closePrice
    end in
  PricePoint.mk date
    (elementAt (Quote.open quotes) index)
    (elementAt (Quote.high quotes) index)
    (elementAt (Quote.low quotes) index)
    finalClose
    (elementAt (Quote.volume quotes) index)
    adjClosePrice.

(** [item.close !== null && item.close !== undefined && !isNaN(item.close)] *)
Definition hasClose (item : PricePoint.t (option float)) : bool :=
  match PricePoint.close item with
  | Some close => negb (PrimFloat.is_nan close)
  | None => false
  end.

(** [new Date(timestamp * 1000)] is a date when its milliseconds lie within
    the range of [Date], 8.64e15 on either side of the epoch; the function
    logs [toISOString()] of dates it built, which needs them to be dates. *)
Definition inDateRange (timestamp : Z) : Prop :=
  (-8640000000000000 <= timestamp * 1000 <= 8640000000000000)%Z.

(** The [data] array of what [processFinancialData] returns, for timestamps
    that are [inDateRange]. *)
Definition processFinancialData (timestamps : list Z) (quotes : Quote.t)
    (adjClose : list (option float)) : list (PricePoint.t (option float)) :=
  sortByDate PricePoint.date
    (filter (fun item => hasClose item = true)
            (imap (rawPoint quotes adjClose) timestamps)).

(** ** The statistics boxes *)

(** The numbers [updateStatistics] writes into the four boxes. *)
Module Statistics.
Record t (num : Type) := mk {
  currentPriceUSD : num;
  currentPriceNOK : num;
  priceChangeUSD : num;
  priceChangeNOK : num;
  priceChangePercentUSD : num;
  priceChangePercentNOK : num;
  totalReturnUSD : num;
  totalReturnNOK : num;
  totalReturnPercentUSD : num;
  totalReturnPercentNOK : num;
  currencyImpactNOK : num;
  currencyImpactPercentNOK : num;
  volatility : num
}.
Arguments mk {num}.
Arguments currentPriceUSD {num}.
Arguments currentPriceNOK {num}.
Arguments priceChangeUSD {num}.
Arguments priceChangeNOK {num}.
Arguments priceChangePercentUSD {num}.
Arguments priceChangePercentNOK {num}.
Arguments totalReturnUSD {num}.
Arguments totalReturnNOK {num}.
Arguments totalReturnPercentUSD {num}.
Arguments totalReturnPercentNOK {num}.
Arguments currencyImpactNOK {num}.
Arguments currencyImpactPercentNOK {num}.
Arguments volatility {num}.
End Statistics.

Section StatisticsBoxes.
Context {num : Type} {N : Number num}.
Context (localTZA : Z -> Z).
Context (currencyRates : gmap string num).
Context (historicalRates : list (RateEntry.t num)).

(** [data[data.length - 2]?.close || currentPriceUSD]: the close before the
    last when there is one and it is truthy. *)
Definition previousClose (data : list (PricePoint.t num)) (currentPriceUSD : num) : num :=
  if bool_decide (2 <= length data) then
    let close := closeAt data (length data - 2) in
    if num_truthy close then close else currentPriceUSD
  else currentPriceUSD.

(** The currency impact of the third box, [(currencyImpactNOK,
    currencyImpactPercentNOK)]: both stay 0 unless NOK is selected and the
    table has an entry on the first and on the last date. *)
Definition statisticsCurrencyImpact (selectedCurrency : string)
    (first last : PricePoint.t num) : num * num :=
  if bool_decide (0 < length historicalRates)
     && bool_decide (selectedCurrency = "NOK") then
    let startDate := PricePoint.date first in
    let endDate := PricePoint.date last in
    match List.find (fun rate => sameDateString localTZA (RateEntry.date rate) startDate)
                    historicalRates,
          List.find (fun rate => sameDateString localTZA (RateEntry.date rate) endDate)
                    historicalRates with
    | Some startRateData, Some endRateData =>
        let startRate := RateEntry.rate startRateData in
        let endRate := RateEntry.rate endRateData in
        let startValueUSD := PricePoint.close first in
        let endValueUSD := PricePoint.close last in
        let startValueNOK := (startValueUSD * startRate)%num in
        let endValueNOKWithStartRate := (endValueUSD * startRate)%num in
        let actualEndValueNOK := (endValueUSD * endRate)%num in
        let currencyImpactNOK := (actualEndValueNOK - endValueNOKWithStartRate)%num in
        (currencyImpactNOK, ((currencyImpactNOK / startValueNOK) * num_lit 100)%num)
    | _, _ => (num_lit 0, num_lit 0)
    end
  else (num_lit 0, num_lit 0).

(** [updateStatistics()]: [None] when it returns at once (no data), else
    the numbers it shows. [currentData] is [None] for [null], otherwise its
    [data] array; [first] is [data[0]] and [last] is
    [data[data.length - 1]], which a non-empty array has. *)
Definition updateStatistics (currentData : option (list (PricePoint.t num)))
    (selectedCurrency : string) : option (Statistics.t num) :=
  match currentData with
  | None => None
  | Some data =>
      match data !! 0, data !! (length data - 1) with
      | Some first, Some last =>
          let rate := (rateOf currencyRates "NOK" / rateOf currencyRates "USD")%num in
          (* Get current prices in both currencies *)
          let currentPriceUSD := PricePoint.close last in
          let currentPriceNOK := (currentPriceUSD * rate)%num in
          (* Get previous day prices for change calculation *)
          let previousPriceUSD := previousClose data currentPriceUSD in
          let previousPriceNOK := (previousPriceUSD * rate)%num in
          (* Get start period prices *)
          let startPriceUSD := PricePoint.close first in
          let startPriceNOK := (startPriceUSD * rate)%num in
          (* Calculate 1-day changes *)
          let priceChangeUSD := (currentPriceUSD - previousPriceUSD)%num in
          let priceChangeNOK := (currentPriceNOK - previousPriceNOK)%num in
          let priceChangePercentUSD :=
            ((priceChangeUSD / previousPriceUSD) * num_lit 100)%num in
          let priceChangePercentNOK :=
            ((priceChangeNOK / previousPriceNOK) * num_lit 100)%num in
          (* Calculate total returns for the selected period *)
          let totalReturnUSD := (currentPriceUSD - startPriceUSD)%num in
          let totalReturnNOK := (currentPriceNOK - startPriceNOK)%num in
          let totalReturnPercentUSD :=
            ((totalReturnUSD / startPriceUSD) * num_lit 100)%num in
          let totalReturnPercentNOK :=
            ((totalReturnNOK / startPriceNOK) * num_lit 100)%num in
          let volatility := calculateVolatility data in
          let impact := statisticsCurrencyImpact selectedCurrency first last in
          Some (Statistics.mk currentPriceUSD currentPriceNOK
                  priceChangeUSD priceChangeNOK
                  priceChangePercentUSD priceChangePercentNOK
                  totalReturnUSD totalReturnNOK
                  totalReturnPercentUSD totalReturnPercentNOK
                  impact.1 impact.2 volatility)
      | _, _ => None
      end
  end.

End StatisticsBoxes.

(** ** The series of the main chart *)

(** What [renderMainChart] hands to the chart: the labels and the data of
    the datasets, in the order they are pushed. The second and the third
    dataset are there only under their conditions. *)
Module Chart.
Record t := mk {
  labels : list Date;
  index : list float;
  currencyImpact : option (list float);
  noCurrencyChanges : option (list float)
}.
End Chart.

Section MainChart.
Context (localTZA : Z -> Z).
Context (currencyRates : gmap string float).
Context (historicalRates : list (RateEntry.t float)).

(** The starting rate both lines are to share: [null] unless NOK is shown
    for a USD index and the table has an entry on the first date. The
    condition reads [indexInfo.currency] last, and only when what stands
    before it holds. *)
Definition chartStartRate (data : list (PricePoint.t float))
    (selectedCurrency : string) (indexInfo : option IndexInfo.t)
    : completion (option float) :=
  if bool_decide (0 < length historicalRates)
     && bool_decide (selectedCurrency = "NOK") then
    match indexInfo with
    | None => TypeError
    | Some info =>
        if bool_decide (IndexInfo.currency info = "USD") then
          match data !! 0 with
          | None => TypeError
          | Some first =>
              let startDate := PricePoint.date first in
              match List.find
                      (fun rate => sameDateString localTZA (RateEntry.date rate) startDate)
                      historicalRates with
              | Some startRateData => Normal (Some (RateEntry.rate startRateData))
              | None => Normal None
              end
          end
        else Normal None
    end
  else Normal None.

(** The data part of [renderMainChart] for [currentData.data = data] and
    [indexInfo = indexConfig[symbol]]: the chart's series and the
    [currencyRates] the call leaves (it installs the fallback rates when
    there were none). After the starting rate the function logs
    [indexInfo.currency], without a guard. *)
Definition renderMainChart (data : list (PricePoint.t float))
    (selectedCurrency : string) (indexInfo : option IndexInfo.t)
    : completion (Chart.t * gmap string float) :=
  match chartStartRate data selectedCurrency indexInfo with
  | TypeError => TypeError
  | Normal startRate =>
      match indexInfo with
      | None => TypeError
      | Some info =>
          let indexCurrency := IndexInfo.currency info in
          (* Convert data to selected currency *)
          let convertedData :=
            convertDataToCurrency localTZA currencyRates historicalRates data
              selectedCurrency indexCurrency startRate in
          let haveRates := bool_decide (0 < size currencyRates) in
          (* Calculate currency impact over time (only if we have currency rates) *)
          let currencyImpactData :=
            if haveRates
            then calculateCurrencyImpactOverTime currencyRates data
                   selectedCurrency indexCurrency
            else [] in
          let currencyRates' := if haveRates then currencyRates else fallbackRates in
          (* Calculate index performance without currency changes *)
          match calculateIndexWithoutCurrencyChanges localTZA historicalRates data
                  selectedCurrency indexCurrency with
          | TypeError => TypeError
          | Normal indexWithoutCurrencyChangesData =>
              Normal
                (Chart.mk
                   (map PricePoint.date convertedData)
                   (map PricePoint.close convertedData)
                   (if bool_decide (0 < length currencyImpactData)
                    then Some (map ImpactPoint.impact currencyImpactData) else None)
                   (if bool_decide (0 < length indexWithoutCurrencyChangesData)
                       && negb (bool_decide (selectedCurrency = "USD"))
                    then Some (map ValuePoint.value indexWithoutCurrencyChangesData)
                    else None),
                 currencyRates')
          end
      end
  end.

End MainChart.

(** ** Latest prices: the market overview and the live update *)

(** [array[array.length - 1]] and [array[array.length - 2]]; [None] for
    [null] and for [undefined]. *)
Definition lastElement (array : list (option float)) : option float :=
  mjoin (last array).

Definition secondToLastElement (array : list (option float)) : option float :=
  if bool_decide (2 <= length array) then elementAt array (length array - 2)
  else None.

(** [ToBoolean] of a number or [null]. *)
Definition truthyPrice (x : option float) : bool :=
  match x with
  | Some v => float_truthy v
  | None => false
  end.

(** [x || y] *)
Definition orElse (x y : option float) : option float :=
  if truthyPrice x then x else y.

(** The entry of the market overview for one symbol, [(price, change,
    changePercent)], or none. *)
Definition overviewEntry (adjClose closes : list (option float))
    : option (float * float * float) :=
  let currentPrice := orElse (lastElement adjClose) (lastElement closes) in
  let previousPrice := orElse (secondToLastElement adjClose) (secondToLastElement closes) in
  match currentPrice, previousPrice with
  | Some current, Some previous =>
      if float_truthy current && float_truthy previous then
        let change := (current - previous)%float in
        let changePercent := ((change / previous) * float_lit 100)%float in
        Some (current, change, changePercent)
      else None
  | _, _ => None
  end.






(** ** A sample price feed *)

(** Three trading days; the second has no close, the third no adjusted
    close. *)
Definition feed_timestamps : list Z := [0; 86400; 172800]%Z.

Definition feed_quotes : Quote.t :=
  Quote.mk [Some 100%float; None; Some 101%float]
           [Some 101%float; None; Some 103%float]
           [Some 99%float; None; Some 100%float]
           [Some 100%float; None; Some 102%float]
           [Some 1000%float; None; Some 1200%float].

Definition feed_adjClose : list (option float) := [Some 99.5%float; None; None].

(** ** Rate lookup *)

Section Lookup.
Context {num : Type} {N : Number num}.
Context (localTZA : Z -> Z).
Context (currencyRates : gmap string num).

Implicit Types (table : list (RateEntry.t num)) (e : RateEntry.t num).

Lemma find_first {A} (p : A -> bool) (l : list A) (x : A) :
  List.find p l = Some x ->
  exists i, l !! i = Some x /\ p x = true /\
    forall j y, j < i -> l !! j = Some y -> p y = false.
Proof.
  induction l as [|a l IH]; simpl; [discriminate|].
  destruct (p a) eqn:Hpa.
  - intros [= ->]. exists 0. repeat split; auto. intros j y Hj. lia.
  - intros Hf. destruct (IH Hf) as (i & Hi & Hx & Hbefore).
    exists (S i). repeat split; auto.
    intros [|j] y Hj Hy; simpl in Hy.
    + by injection Hy as ->.
    + apply (Hbefore j); [lia|done].
Qed.

Lemma find_unique_first {A} (p : A -> bool) (l : list A) (i : nat) (x : A) :
  l !! i = Some x -> p x = true ->
  (forall j y, j < i -> l !! j = Some y -> p y = false) ->
  List.find p l = Some x.
Proof.
  revert i. induction l as [|a l IH]; intros i Hi Hx Hbefore; [done|].
  destruct i as [|i]; simpl in *.
  - injection Hi as ->. by rewrite Hx.
  - rewrite (Hbefore 0 a); [|lia|done].
    apply (IH i); auto. intros j y Hj Hy. apply (Hbefore (S j)); [lia|done].
Qed.

(** Between dates that are whole days, the distance in time is the number
    of days between them, in milliseconds. *)
Lemma dist_whole_days (a b : Z) (rate : num) :
  dist (a * msPerDay)%Z (RateEntry.mk (b * msPerDay)%Z rate)
  = (Z.abs (a - b) * msPerDay)%Z.
Proof. unfold dist, msPerDay. simpl. lia. Qed.

Lemma closer_loop (targetDate : Date) (rest : list (RateEntry.t num)) :
  forall pre best ib,
    ib <= length pre ->
    firstNearest targetDate (pre ++ rest) (length pre) ib best ->
    exists ib' best',
      fold_left (closer targetDate) rest (best, dist targetDate best)
        = (best', dist targetDate best') /\
      firstNearest targetDate (pre ++ rest) (length (pre ++ rest)) ib' best'.
Proof.
  induction rest as [|x rest IH]; intros pre best ib Hib [Hbest Hmin].
  - exists ib, best. simpl. split; [done|]. rewrite app_nil_r in *. by split.
  - simpl. unfold closer at 2. simpl. fold (dist targetDate x).
    rewrite (cons_middle x pre rest), app_assoc in Hbest, Hmin |- *.
    assert (Hx : ((pre ++ [x]) ++ rest) !! length pre = Some x).
    { rewrite <- app_assoc. simpl. by rewrite list_lookup_middle. }
    destruct (Z.ltb_spec (dist targetDate x) (dist targetDate best)) as [Hlt|Hge].
    + apply (IH (pre ++ [x]) x (length pre)).
      { rewrite length_app. simpl. lia. }
      split; [done|]. intros j e' Hj He'.
      rewrite length_app in Hj. simpl in Hj.
      destruct (decide (j = length pre)) as [->|Hne].
      * rewrite Hx in He'. injection He' as <-. split; [lia|done].
      * destruct (Hmin j e') as [Hle _]; [lia|done|]. split; lia.
    + apply (IH (pre ++ [x]) best ib).
      { rewrite length_app. simpl. lia. }
      split; [done|]. intros j e' Hj He'.
      rewrite length_app in Hj. simpl in Hj.
      destruct (decide (j = length pre)) as [->|Hne].
      * rewrite Hx in He'. injection He' as <-. split; [lia|]. intros _. lia.
      * apply Hmin; [lia|done].
Qed.

(** C3, as the code has it. For a non-empty rate table, [findClosestRate]
    returns the rate of the entry whose calendar date ([toDateString])
    equals the query's, the first such entry in the table; when no entry has
    the query's calendar date it returns the rate of an entry at least
    distance from the query in milliseconds, the time of day counting, and
    among entries at the same least distance the first in the table, which
    in a table in ascending order of date is the one with the earlier
    date. *)
Theorem findClosestRate_exact_or_nearest table (targetDate : Date) :
  table <> [] ->
  (forall i e,
      table !! i = Some e ->
      sameDateString localTZA (RateEntry.date e) targetDate = true ->
      (forall j e', j < i -> table !! j = Some e' ->
         sameDateString localTZA (RateEntry.date e') targetDate = false) ->
      findClosestRate localTZA currencyRates table targetDate = RateEntry.rate e)
  /\
  ((forall j e', table !! j = Some e' ->
      sameDateString localTZA (RateEntry.date e') targetDate = false) ->
   exists i e,
     table !! i = Some e /\
     findClosestRate localTZA currencyRates table targetDate = RateEntry.rate e /\
     (forall j e', table !! j = Some e' ->
        (dist targetDate e <= dist targetDate e')%Z) /\
     (forall j e', table !! j = Some e' ->
        dist targetDate e' = dist targetDate e ->
        i <= j /\ (ascending table -> (RateEntry.date e <= RateEntry.date e')%Z))).
Proof.
  intros Hne. destruct table as [|first rest] eqn:Htable; [done|].
  rewrite <- Htable. split.
  - intros i e Hi He Hbefore. unfold findClosestRate.
    rewrite (find_unique_first _ table i e Hi He Hbefore).
    by rewrite Htable.
  - intros Hnone. unfold findClosestRate.
    assert (Hfind : List.find
              (fun rate => sameDateString localTZA (RateEntry.date rate) targetDate)
              table = None).
    { destruct (List.find _ table) as [x|] eqn:Hf; [|done].
      destruct (find_first _ _ _ Hf) as (k & Hk & Hx & _).
      by rewrite (Hnone k x Hk) in Hx. }
    rewrite Hfind, Htable, <- Htable.
    destruct (closer_loop targetDate table [] first 0) as (ib & best & Hfold & Hib & Hmin).
    { simpl. lia. }
    { split; [by rewrite Htable|]. intros j e' Hj. simpl in Hj. lia. }
    simpl in Hfold, Hib, Hmin. fold (dist targetDate first). rewrite Hfold. simpl.
    exists ib, best. split; [done|]. split; [done|].
    assert (Hlen : forall j e', table !! j = Some e' -> j < length table).
    { intros j e' He'. by eapply lookup_lt_Some. }
    split.
    + intros j e' He'. by apply (Hmin j e' (Hlen j e' He')).
    + intros j e' He' Htie.
      destruct (Hmin j e' (Hlen j e' He') He') as [_ Hfirst].
      split; [by apply Hfirst|].
      intros Hasc. apply (Hasc ib j best e'); auto.
Qed.

End Lookup.

(** ** Conversion and decomposition, for any arithmetic *)

Section Decomposition.
Context {num : Type} {N : Number num}.
Context (localTZA : Z -> Z).
Context (currencyRates : gmap string num).

Implicit Types (table : list (RateEntry.t num)) (data : list (PricePoint.t num)).
Implicit Types (p q : PricePoint.t num).

Lemma closeAt_lookup data i p :
  data !! i = Some p -> closeAt data i = PricePoint.close p.
Proof. unfold closeAt. by intros ->. Qed.

(** The three ways [convertDataToCurrency] can go. *)
Lemma convert_same table data c override :
  convertDataToCurrency localTZA currencyRates table data c c override = data.
Proof. unfold convertDataToCurrency. by rewrite decide_True. Qed.

Lemma convert_historical table data override :
  table <> [] ->
  convertDataToCurrency localTZA currencyRates table data "NOK" "USD" override
  = imap (fun index item =>
            scaled (match useOverride index override with
                    | Some r => r
                    | None => findClosestRate localTZA currencyRates table
                                              (PricePoint.date item)
                    end) item) data.
Proof.
  intros Hne. unfold convertDataToCurrency.
  rewrite decide_False by discriminate.
  rewrite (bool_decide_eq_true_2 (0 < length table)); [done|].
  destruct table; [done|simpl; lia].
Qed.

Lemma convert_static table data target source override :
  target <> source ->
  table = [] \/ target <> "NOK" \/ source <> "USD" ->
  convertDataToCurrency localTZA currencyRates table data target source override
  = map (scaled (rateOf currencyRates target / rateOf currencyRates source)%num) data.
Proof.
  intros Hne Hstatic. unfold convertDataToCurrency.
  rewrite decide_False by done.
  destruct Hstatic as [->|[H|H]]; [done| |].
  - rewrite (bool_decide_eq_false_2 (target = "NOK")) by done.
    by rewrite andb_false_r.
  - rewrite (bool_decide_eq_false_2 (source = "USD")) by done.
    by rewrite andb_false_r.
Qed.

(** The currency-impact series as the script computes it, in any
    arithmetic: 0 at the first point, and at every later point the change of
    the value converted at the current rate minus the change of the
    unconverted value. *)
Lemma currency_impact_as_computed data (targetCurrency sourceCurrency : string) :
  targetCurrency <> sourceCurrency ->
  let r := (rateOf currencyRates targetCurrency
            / rateOf currencyRates sourceCurrency)%num in
  let impact := calculateCurrencyImpactOverTime currencyRates data
                  targetCurrency sourceCurrency in
  length impact = length data /\
  (forall p, data !! 0 = Some p ->
     impact !! 0 = Some (ImpactPoint.mk (PricePoint.date p) (num_lit 0))) /\
  forall i p q, 1 <= i -> data !! i = Some p -> data !! (i - 1) = Some q ->
    impact !! i
    = Some (ImpactPoint.mk (PricePoint.date p)
              ((PricePoint.close p * r - PricePoint.close q * r)
               - (PricePoint.close p - PricePoint.close q))%num).
Proof.
  intros Hne r impact. subst impact.
  unfold calculateCurrencyImpactOverTime. rewrite decide_False by done.
  split; [by rewrite length_imap|]. split.
  - intros p Hp. by rewrite list_lookup_imap, Hp.
  - intros i p q Hi Hp Hq. rewrite list_lookup_imap, Hp. simpl.
    rewrite decide_False by lia. by rewrite (closeAt_lookup _ _ _ Hq).
Qed.

(** C6. When source and target currency are the same, [convertDataToCurrency]
    returns its input and every point of the currency-impact series is 0. *)
Theorem same_currency_identity table data (c : string) (override : option num) :
  convertDataToCurrency localTZA currencyRates table data c c override = data /\
  length (calculateCurrencyImpactOverTime currencyRates data c c) = length data /\
  forall i ip,
    calculateCurrencyImpactOverTime currencyRates data c c !! i = Some ip ->
    ImpactPoint.impact ip = num_lit 0.
Proof.
  split; [apply convert_same|].
  unfold calculateCurrencyImpactOverTime. rewrite decide_True by done.
  split; [by rewrite length_map|].
  intros i ip. rewrite list_lookup_fmap.
  destruct (data !! i); simpl; [|done]. by intros [= <-].
Qed.

(** C2, as the code has it. The start rate of the fixed-rate series is the
    rate of the first table entry on the calendar date of the first point
    (an exact match only, the nearest entry is not consulted), and every
    point's value is its close times that rate; when no entry of the table
    is on that calendar date, the result is the empty series. *)
Theorem fixed_rate_series_exact_start table data (targetCurrency sourceCurrency : string) p :
  data !! 0 = Some p ->
  (forall i e,
      table !! i = Some e ->
      sameDateString localTZA (RateEntry.date e) (PricePoint.date p) = true ->
      (forall j e', j < i -> table !! j = Some e' ->
         sameDateString localTZA (RateEntry.date e') (PricePoint.date p) = false) ->
      exists series,
        calculateIndexWithoutCurrencyChanges localTZA table data
          targetCurrency sourceCurrency = Normal series /\
        length series = length data /\
        forall k q, data !! k = Some q ->
          series !! k = Some (ValuePoint.mk (PricePoint.date q)
                                (PricePoint.close q * RateEntry.rate e)%num))
  /\
  ((forall j e', table !! j = Some e' ->
      sameDateString localTZA (RateEntry.date e') (PricePoint.date p) = false) ->
   calculateIndexWithoutCurrencyChanges localTZA table data
     targetCurrency sourceCurrency = Normal []).
Proof.
  intros Hp. unfold calculateIndexWithoutCurrencyChanges. rewrite Hp. split.
  - intros i e Hi He Hbefore.
    rewrite (bool_decide_eq_false_2 (length table = 0)).
    2:{ apply lookup_lt_Some in Hi. lia. }
    rewrite (find_unique_first _ table i e Hi He Hbefore).
    eexists. split; [done|]. split; [by rewrite length_map|].
    intros k q Hq. by rewrite list_lookup_fmap, Hq.
  - intros Hnone. case_bool_decide; [done|].
    destruct (List.find _ table) as [x|] eqn:Hf; [|done].
    destruct (find_first _ _ _ Hf) as (k & Hk & Hx & _).
    by rewrite (Hnone k x Hk) in Hx.
Qed.

(** C4, as the code has it. With an empty rate table [findClosestRate]
    returns the static current rate [currencyRates.NOK / currencyRates.USD]
    as an ordinary number, [convertDataToCurrency] converts every point with
    the static rate of the pair, and
    [calculateIndexWithoutCurrencyChanges] returns the empty series. *)
Theorem empty_table_falls_back_to_static_rate :
  (forall targetDate,
      findClosestRate localTZA currencyRates [] targetDate
      = (rateOf currencyRates "NOK" / rateOf currencyRates "USD")%num) /\
  (forall data target source override,
      target <> source ->
      convertDataToCurrency localTZA currencyRates [] data target source override
      = map (scaled (rateOf currencyRates target / rateOf currencyRates source)%num)
            data) /\
  (forall data target source,
      calculateIndexWithoutCurrencyChanges (num := num) localTZA [] data target source
      = Normal []).
Proof.
  split; [done|]. split; [|done].
  intros data target source override Hne. apply convert_static; auto.
Qed.






(** The shape of the converted series, on values: the output of
    [convertDataToCurrency] has the length of the input, the same dates and
    the same volumes in the same order, and every output point is the input
    point itself or the input point with its five price fields multiplied
    by one rate. *)
Lemma convert_frame table data target source (override : option num) :
  let out := convertDataToCurrency localTZA currencyRates table data target source override in
  length out = length data /\
  map PricePoint.date out = map PricePoint.date data /\
  map PricePoint.volume out = map PricePoint.volume data /\
  forall i p, data !! i = Some p ->
    out !! i = Some p \/ exists rate, out !! i = Some (scaled rate p).
Proof.
  intros out. subst out. unfold convertDataToCurrency.
  destruct (decide (target = source)); [by auto|].
  match goal with |- context [if ?b then _ else _] => destruct b end.
  - split; [by rewrite length_imap|].
    split; [|split].
    + apply list_eq. intros i.
      rewrite !list_lookup_fmap, list_lookup_imap. by destruct (data !! i).
    + apply list_eq. intros i.
      rewrite !list_lookup_fmap, list_lookup_imap. by destruct (data !! i).
    + intros i p Hp. right. rewrite list_lookup_imap, Hp. simpl. eauto.
  - split; [by rewrite length_map|].
    split; [|split].
    + rewrite <- list_fmap_compose. by apply list_fmap_ext.
    + rewrite <- list_fmap_compose. by apply list_fmap_ext.
    + intros i p Hp. right. rewrite list_lookup_fmap, Hp. simpl. eauto.
Qed.

End Decomposition.

(** ** What conversion does to the heap *)

Section HeapFrame.
Context {num : Type} {N : Number num}.
Context (localTZA : Z -> Z).
Context (currencyRates : gmap string num).
Context (historicalRates : list (RateEntry.t num)).

Abbreviation heap := (list (@object num)) (only parsing).

Implicit Types (h : heap) (points : list (PricePoint.t num)).

Lemma readPoint_app h new r p :
  readPoint h r = Some p -> readPoint (h ++ new) r = Some p.
Proof.
  unfold readPoint. destruct (h !! r) as [o|] eqn:Hr; [|done].
  by rewrite (lookup_app_l_Some _ _ _ _ Hr).
Qed.

Lemma readArray_app h new r elems :
  readArray h r = Some elems -> readArray (h ++ new) r = Some elems.
Proof.
  unfold readArray. destruct (h !! r) as [o|] eqn:Hr; [|done].
  by rewrite (lookup_app_l_Some _ _ _ _ Hr).
Qed.

Lemma pointsAt_app h new array points :
  pointsAt h array points -> pointsAt (h ++ new) array points.
Proof.
  intros (elems & Harr & Helems). exists elems. split.
  - by apply readArray_app.
  - eapply Forall2_impl; [done|]. intros r p. apply readPoint_app.
Qed.

Lemma mapElems_spec (elems : list ref) :
  forall callback h points,
    Forall2 (fun r p => readPoint h r = Some p) elems points ->
    exists rs new,
      mapElems callback elems h = Some (rs, h ++ new) /\
      Forall2 (fun r p => readPoint (h ++ new) r = Some p) rs (imap callback points).
Proof.
  induction elems as [|r rest IH]; intros callback h points Hread.
  - apply Forall2_nil_inv_l in Hread as ->. exists [], []. simpl.
    rewrite app_nil_r. split; [done|constructor].
  - apply Forall2_cons_inv_l in Hread as (p & points' & Hp & Hrest & ->).
    simpl. rewrite Hp.
    destruct (IH (fun index => callback (S index)) (h ++ [Point (callback 0 p)]) points')
      as (rs & new & Hmap & Hrs).
    { eapply Forall2_impl; [done|]. intros r0 p0. apply readPoint_app. }
    rewrite Hmap. exists (length h :: rs), (Point (callback 0 p) :: new).
    rewrite <- app_assoc in Hrs |- *. simpl in Hrs |- *.
    split; [done|]. constructor; [|done].
    unfold readPoint. by rewrite list_lookup_middle.
Qed.

Lemma arrayMap_spec callback h array points :
  pointsAt h array points ->
  exists out new,
    arrayMap callback array h = Some (out, h ++ new) /\
    pointsAt (h ++ new) out (imap callback points).
Proof.
  intros (elems & Harr & Helems). unfold arrayMap. rewrite Harr.
  destruct (mapElems_spec elems callback h points Helems) as (rs & new & Hmap & Hrs).
  rewrite Hmap. unfold alloc. exists (length (h ++ new)), (new ++ [Array rs]).
  rewrite app_assoc. split; [done|].
  exists rs. split.
  - unfold readArray. by rewrite list_lookup_middle.
  - eapply Forall2_impl; [done|]. intros r p. apply readPoint_app.
Qed.

(** C9. Given an array of points in the heap, [convertDataToCurrency]
    returns an array for every currency pair; the heap it leaves extends the
    heap it found, so every object that existed, the input array and its
    points among them, is unchanged; the returned array holds the converted
    points, as many as the input, with the same dates and the same volumes
    in the same order, each point being the input point or the input point
    with its five price fields multiplied by one rate. *)
Theorem convert_keeps_shape_and_input h (data : ref) points
    (targetCurrency sourceCurrency : string) (startRateOverride : option num) :
  pointsAt h data points ->
  exists out new,
    convertDataToCurrency_heap localTZA currencyRates historicalRates data
      targetCurrency sourceCurrency startRateOverride h = Some (out, h ++ new) /\
    (forall r o, h !! r = Some o -> (h ++ new) !! r = Some o) /\
    pointsAt (h ++ new) data points /\
    exists result,
      pointsAt (h ++ new) out result /\
      result = convertDataToCurrency localTZA currencyRates historicalRates points
                 targetCurrency sourceCurrency startRateOverride /\
      length result = length points /\
      map PricePoint.date result = map PricePoint.date points /\
      map PricePoint.volume result = map PricePoint.volume points /\
      forall i p, points !! i = Some p ->
        result !! i = Some p \/ exists rate, result !! i = Some (scaled rate p).
Proof.
  intros Hdata.
  assert (Hconv : exists out new,
    convertDataToCurrency_heap localTZA currencyRates historicalRates data
      targetCurrency sourceCurrency startRateOverride h = Some (out, h ++ new) /\
    pointsAt (h ++ new) out
      (convertDataToCurrency localTZA currencyRates historicalRates points
         targetCurrency sourceCurrency startRateOverride)).
  { unfold convertDataToCurrency_heap, convertDataToCurrency.
    destruct (decide (targetCurrency = sourceCurrency)).
    - exists data, []. rewrite app_nil_r. by split.
    - match goal with |- context [if ?b then _ else _] => destruct b end.
      + by apply arrayMap_spec.
      + destruct (arrayMap_spec (fun _ item =>
                    scaled (rateOf currencyRates targetCurrency
                            / rateOf currencyRates sourceCurrency)%num item)
                    h data points Hdata) as (out & new & Hmap & Hout).
        exists out, new. split; [done|].
        replace (map _ points) with (imap (fun _ : nat => scaled
                   (rateOf currencyRates targetCurrency
                    / rateOf currencyRates sourceCurrency)%num) points); [done|].
        apply list_eq. intros i. by rewrite list_lookup_imap, list_lookup_fmap. }
  destruct Hconv as (out & new & Hrun & Hout).
  exists out, new. split; [done|]. split.
  { intros r o Hr. by apply lookup_app_l_Some. }
  split; [by apply pointsAt_app|].
  eexists. split; [done|]. split; [done|].
  apply convert_frame.
Qed.

End HeapFrame.

(** ** Algebraic identities, in exact arithmetic *)

Section ExactArithmetic.
Context (localTZA : Z -> Z).
Context (currencyRates : gmap string R).

Implicit Types (data : list (PricePoint.t R)).

Local Open Scope R_scope.




End ExactArithmetic.



(** ** Volatility *)

Section Volatility.
Context {num : Type} {N : Number num}.

Implicit Types (data : list (PricePoint.t num)) (l : list num).

Lemma fold_left_push {A B} (f : A -> B) (l : list A) (acc : list B) :
  fold_left (fun returns i => returns ++ [f i]) l acc = acc ++ map f l.
Proof.
  revert acc. induction l as [|a l IH]; intros acc; simpl.
  - by rewrite app_nil_r.
  - by rewrite IH, <- app_assoc.
Qed.

Lemma fold_left_add_map {A} (g : A -> num) (l : list A) (acc : num) :
  fold_left (fun sum x => (sum + g x)%num) l acc = fold_left num_add (map g l) acc.
Proof. revert acc. induction l as [|a l IH]; intros acc; simpl; auto. Qed.

Lemma dailyReturns_simpleReturns data :
  dailyReturns data = simpleReturns (map PricePoint.close data).
Proof.
  unfold dailyReturns, simpleReturns. rewrite fold_left_push. simpl.
  apply list_eq. intros k.
  rewrite list_lookup_fmap, lookup_zip_with, lookup_tail, !list_lookup_fmap.
  destruct (decide (k < length data - 1)) as [Hk|Hk].
  - rewrite lookup_seq_lt by done. simpl.
    destruct (lookup_lt_is_Some_2 data k) as [p Hp]; [lia|].
    destruct (lookup_lt_is_Some_2 data (S k)) as [q Hq]; [lia|].
    replace (S k - 0) with (S k) by lia. replace (k - 0) with k by lia.
    rewrite Hp, Hq. simpl.
    by rewrite (closeAt_lookup _ _ _ Hp), (closeAt_lookup _ _ _ Hq).
  - rewrite lookup_seq_ge by lia. simpl.
    destruct (data !! k) as [p|] eqn:Hp; simpl; [|done].
    rewrite (lookup_ge_None_2 data (S k)); [done|].
    apply lookup_lt_Some in Hp. lia.
Qed.

Lemma calculateVolatility_population data :
  calculateVolatility data = annualizedPct populationStdDev data.
Proof.
  unfold calculateVolatility, annualizedPct, populationStdDev, squaredDeviations.
  rewrite <- dailyReturns_simpleReturns.
  by rewrite fold_left_add_map.
Qed.

End Volatility.

(** C7, as the code has it. [calculateVolatility] is the population
    standard deviation (divisor [n], the number of returns) of the
    day-over-day simple returns of the close series, times [sqrt(252)],
    times 100, in any arithmetic; in binary64 a series of fewer than 2
    points gives [NaN]. *)
Theorem volatility_is_population_stddev :
  (forall (num : Type) (N : Number num) (series : list (PricePoint.t num)),
      calculateVolatility series = annualizedPct populationStdDev series) /\
  (forall data : list (PricePoint.t float),
      length data < 2 -> calculateVolatility data = PrimFloat.nan).
Proof.
  split; [intros; apply calculateVolatility_population|].
  intros [|p [|q rest]] Hlen; [reflexivity|reflexivity|simpl in Hlen; lia].
Qed.

(** ** Binary64 facts: division by zero *)

Section Binary64.

Lemma Prim2SF_isZero (x : float) : isZero x -> exists b, Prim2SF x = S754_zero b.
Proof.
  unfold isZero. rewrite FloatAxioms.eqb_spec.
  change (Prim2SF 0%float) with (S754_zero false).
  destruct (Prim2SF x) as [b|b| |b m e]; [by eauto| | |];
    try destruct b; discriminate.
Qed.

Lemma isZero_of_SF (x : float) b : Prim2SF x = S754_zero b -> isZero x.
Proof.
  intros H. unfold isZero. rewrite FloatAxioms.eqb_spec, H.
  change (Prim2SF 0%float) with (S754_zero false). done.
Qed.

Lemma float_of_SF (x : float) (sf : spec_float) : Prim2SF x = sf -> x = SF2Prim sf.
Proof. intros <-. by rewrite SF2Prim_Prim2SF. Qed.

Lemma div_by_zero (x s : float) : isZero s -> notFinite (x / s)%float.
Proof.
  intros Hs. destruct (Prim2SF_isZero s Hs) as [b Hb].
  pose proof (div_spec x s) as H. rewrite Hb in H.
  apply float_of_SF in H. rewrite H. unfold notFinite, SF64div, SFdiv.
  destruct (Prim2SF x) as [sx|sx| |sx m e]; try destruct sx; destruct b;
    simpl; auto.
Qed.

Lemma div_by_nan (x : float) : (x / nan)%float = nan.
Proof.
  pose proof (div_spec x nan) as H.
  change (Prim2SF nan) with S754_nan in H.
  apply float_of_SF in H. rewrite H. unfold SF64div, SFdiv.
  by destruct (Prim2SF x).
Qed.

Lemma zero_times (c r : float) : isZero c -> isZero (c * r)%float \/ (c * r)%float = nan.
Proof.
  intros Hc. destruct (Prim2SF_isZero c Hc) as [b Hb].
  pose proof (mul_spec c r) as H. rewrite Hb in H.
  unfold SF64mul, SFmul in H.
  destruct (Prim2SF r) as [sr|sr| |sr m e].
  - left. by eapply isZero_of_SF.
  - right. by apply float_of_SF in H.
  - right. by apply float_of_SF in H.
  - left. by eapply isZero_of_SF.
Qed.

Lemma notFinite_percent (q : float) : notFinite q -> notFinite (q * float_lit 100)%float.
Proof. intros [->|[->| ->]]; unfold notFinite; vm_compute; auto. Qed.

End Binary64.

(** ** Percentages with a zero starting price, in binary64 *)

Section Percentages.
Context (currencyRates : gmap string float).

Implicit Types (data : list (PricePoint.t float)).

Lemma slice_lookup_0 {A} (l : list A) (start stop : nat) :
  start < stop -> slice l start stop !! 0 = l !! start.
Proof.
  intros Hlt. unfold slice. rewrite lookup_take_lt by lia.
  rewrite lookup_drop. f_equal. lia.
Qed.

Lemma calculateCurrencyImpact_normal data (target source : string) p :
  data !! 0 = Some p ->
  exists v, calculateCurrencyImpact currencyRates data target source = Normal v.
Proof.
  intros Hp. unfold calculateCurrencyImpact. rewrite Hp.
  destruct (decide (target = source)); eauto.
Qed.

Lemma calculateCurrencyImpact_zero_start data (target source : string) p :
  target <> source ->
  data !! 0 = Some p ->
  isZero (PricePoint.close p) ->
  exists v, calculateCurrencyImpact currencyRates data target source = Normal v /\
            notFinite v.
Proof.
  intros Hne Hp Hzero. unfold calculateCurrencyImpact.
  rewrite decide_False by done. rewrite Hp.
  eexists. split; [done|]. cbn [num_mul num_div num_lit float_Number].
  apply notFinite_percent.
  destruct (zero_times (PricePoint.close p)
              (rateOf currencyRates target / rateOf currencyRates source)%float Hzero)
    as [Hz|Hnan].
  - by apply div_by_zero.
  - rewrite Hnan, div_by_nan. unfold notFinite. auto.
Qed.

(** C8, as the code has it. A zero starting price is not signalled: the row
    of the performance table is still produced and its total return, the
    quotient of a division by zero, is [Infinity], [-Infinity] or [NaN];
    [calculateCurrencyImpact] on a series whose first close is zero returns
    normally, with [Infinity], [-Infinity] or [NaN] when the two currencies
    differ and with 0 when they are the same, where it divides nothing. *)
Theorem zero_start_price_not_signalled :
  (forall currentData convertedData (selectedCurrency indexCurrency : string)
          (period : string * Z),
      length currentData = length convertedData ->
      let endIndex := (Z.of_nat (length convertedData) - 1)%Z in
      let startIndex := Z.max 0 (endIndex - period.2) in
      (startIndex < endIndex)%Z ->
      isZero (closeAt convertedData (Z.to_nat startIndex)) ->
      exists row,
        periodRow currencyRates currentData convertedData
                  selectedCurrency indexCurrency period = Normal (Some row) /\
        notFinite (Row.totalReturn row))
  /\
  (forall data (target source : string) p,
      target <> source ->
      data !! 0 = Some p ->
      isZero (PricePoint.close p) ->
      exists v, calculateCurrencyImpact currencyRates data target source = Normal v /\
                notFinite v)
  /\
  (forall data (currency : string),
      calculateCurrencyImpact currencyRates data currency currency = Normal 0%float).
Proof.
  split; [|split; [apply calculateCurrencyImpact_zero_start|]].
  2:{ intros data currency. unfold calculateCurrencyImpact.
      by destruct (decide (currency = currency)). }
  intros currentData convertedData sel idx period Hlen endIndex startIndex Hlt Hzero.
  unfold periodRow. fold endIndex. fold startIndex.
  rewrite (proj2 (Z.ltb_lt startIndex endIndex) Hlt).
  destruct (lookup_lt_is_Some_2 currentData (Z.to_nat startIndex)) as [p Hp].
  { subst endIndex. lia. }
  destruct (calculateCurrencyImpact_normal
              (slice currentData (Z.to_nat startIndex) (Z.to_nat (endIndex + 1)))
              sel idx p) as [v Hv].
  { rewrite slice_lookup_0 by lia. done. }
  rewrite Hv. eexists. split; [done|]. simpl.
  apply notFinite_percent. by apply div_by_zero.
Qed.

End Percentages.

(** ** Scenarios of the specification, run in binary64 *)

Example scenario_gap_lookup :
  findClosestRate utc rates_usd_nok table_gap (day 1) = 10%float.
Proof. reflexivity. Qed.

Example scenario_static_conversion :
  map PricePoint.close
      (convertDataToCurrency utc rates_usd_nok []
         [fp (day 0) 100%float; fp (day 1) 110%float] "NOK" "USD" None)
  = [1000%float; 1100%float] /\
  map ImpactPoint.impact
      (calculateCurrencyImpactOverTime rates_usd_nok
         [fp (day 0) 100%float; fp (day 1) 110%float] "NOK" "USD")
  = [0%float; 90%float].
Proof. split; reflexivity. Qed.

Example scenario_same_currency :
  convertDataToCurrency utc rates_usd_nok []
    [fp (day 0) 100%float; fp (day 1) 105%float; fp (day 2) 103%float] "USD" "USD" None
  = [fp (day 0) 100%float; fp (day 1) 105%float; fp (day 2) 103%float] /\
  map ImpactPoint.impact
      (calculateCurrencyImpactOverTime rates_usd_nok
         [fp (day 0) 100%float; fp (day 1) 105%float; fp (day 2) 103%float] "USD" "USD")
  = [0%float; 0%float; 0%float] /\
  updatePerformanceTable utc rates_usd_nok []
    (Some [fp (day 0) 100%float; fp (day 1) 105%float; fp (day 2) 103%float]) "USD"
    (indexConfig !! "^GSPC")
  = Normal (map (fun period => Row.mk period.1 3%float 0%float 3%float) periods).
Proof. repeat split; reflexivity. Qed.

(** The round trip of the static conversion on the scenario series: in
    binary64 the closes come back exactly here. *)
Example scenario_round_trip :
  map PricePoint.close
    (convertDataToCurrency utc fallbackRates []
       (convertDataToCurrency utc fallbackRates [] closes2 "NOK" "USD" None)
       "USD" "NOK" None)
  = map PricePoint.close closes2.
Proof. vm_compute. reflexivity. Qed.

(** Conversion of the two-point series on the heap: the two converted
    points and the new array are appended, the three objects that were
    there stay as they were. *)
Example scenario_heap_conversion :
  convertDataToCurrency_heap utc rates_usd_nok [] 2 "NOK" "USD" None heap2
  = Some (5, heap2 ++ [Point (fp (day 0) 1000%float); Point (fp (day 1) 1100%float);
                       Array [3; 4]]).
Proof. vm_compute. reflexivity. Qed.

(** The gap table is in ascending order of date. *)
Lemma ascending_table_gap : ascending table_gap.
Proof.
  intros i j a b Ha Hb Hij.
  destruct i as [|[|i]]; destruct j as [|[|j]]; simpl in *;
    try discriminate; try lia;
    injection Ha as <-; injection Hb as <-; simpl; unfold day, msPerDay; lia.
Qed.

(** ** Where the script departs from the specification *)

(** C2 fails as stated: with one table entry on day 0 and a series that
    starts on day 1, lookup finds the nearest entry (rate 10) and the
    fixed-rate series of the specification is [100 * 10]; the script returns
    the empty series. *)
Lemma fixed_rate_series_ignores_nearest_entry :
  findClosestRate utc rates_usd_nok [RateEntry.mk (day 0) 10%float] (day 1) = 10%float /\
  spec_fixedRateSeries utc rates_usd_nok [RateEntry.mk (day 0) 10%float]
    [fp (day 1) 100%float]
  = [ValuePoint.mk (day 1) 1000%float] /\
  calculateIndexWithoutCurrencyChanges utc [RateEntry.mk (day 0) 10%float]
    [fp (day 1) 100%float] "NOK" "USD"
  = Normal [].
Proof. repeat split; reflexivity. Qed.

(** C4 fails as stated: on an empty table [findClosestRate] returns the
    static rate 10.5 as an ordinary number, the very value a table holding
    the rate 10.5 gives, so nothing computed from the returned value can tell
    the caller that the table was empty. *)
Lemma static_fallback_is_not_signalled :
  findClosestRate utc fallbackRates [] (day 0) = 10.5%float /\
  ~ exists detect : float -> bool,
      forall table targetDate,
        detect (findClosestRate utc fallbackRates table targetDate) = true
        <-> table = [].
Proof.
  split; [reflexivity|].
  intros [detect Hdetect].
  pose proof (proj2 (Hdetect [] (day 0)) eq_refl) as Hempty.
  pose proof (proj1 (Hdetect [RateEntry.mk (day 0) 10.5%float] (day 0))) as Hfull.
  change (findClosestRate utc fallbackRates [] (day 0)) with 10.5%float in Hempty.
  change (findClosestRate utc fallbackRates [RateEntry.mk (day 0) 10.5%float] (day 0))
    with 10.5%float in Hfull.
  specialize (Hfull Hempty). discriminate.
Qed.


(** C3 fails as stated: the distance is taken in milliseconds, not in
    calendar days. A price point of the afternoon of day 1 is one calendar
    day from the entry of day 0 and one from the entry of day 2, so the
    lookup of the specification resolves the tie to the earlier entry, rate
    10; it is 37.5 hours from the first and 10.5 hours from the second, and
    the script returns the later entry's rate, 12. *)
Lemma nearest_is_in_milliseconds_not_in_days :
  spec_dayDistance utc afternoon_of_day1 (RateEntry.mk (day 0) 10%float) = 1%Z /\
  spec_dayDistance utc afternoon_of_day1 (RateEntry.mk (day 2) 12%float) = 1%Z /\
  spec_lookup utc table_gap afternoon_of_day1 = Some 10%float /\
  dist afternoon_of_day1 (RateEntry.mk (day 0) 10%float) = 135000000%Z /\
  dist afternoon_of_day1 (RateEntry.mk (day 2) 12%float) = 37800000%Z /\
  findClosestRate utc rates_usd_nok table_gap afternoon_of_day1 = 12%float.
Proof. repeat split; reflexivity. Qed.


(** C7 fails as stated: on the closes 100, 102, 101, 103 the script's
    volatility lies between 22 and 23 (22.229...), while the one computed
    with the sample standard deviation (divisor [n - 1]) lies between 27
    and 28 (27.225...). *)
Lemma volatility_is_not_sample_stddev :
  (PrimFloat.ltb 22%float (calculateVolatility closes4)
   && PrimFloat.ltb (calculateVolatility closes4) 23%float = true) /\
  (PrimFloat.ltb 27%float (annualizedPct sampleStdDev closes4)
   && PrimFloat.ltb (annualizedPct sampleStdDev closes4) 28%float = true).
Proof. split; reflexivity. Qed.

(** C8 fails as stated: with a zero starting price the performance table is
    built without any error, every row carrying [Infinity] as total return;
    with different currencies the currency impact is [Infinity] too and the
    local return is [NaN]. *)
Lemma zero_start_price_gives_infinity :
  exists rows,
    updatePerformanceTable utc rates_usd_nok [] (Some zero_start) "NOK"
      (indexConfig !! "^GSPC")
    = Normal rows /\
    length rows = 5 /\
    Forall (fun row => Row.totalReturn row = infinity /\
                       Row.currencyImpact row = infinity /\
                       Row.localReturn row = PrimFloat.nan) rows.
Proof.
  eexists. split; [vm_compute; reflexivity|]. split; [reflexivity|].
  repeat constructor.
Qed.

(** ** The theorems at concrete inputs *)


Lemma fixed_rate_series_exact_start_witness :
  closes2 !! 0 = Some (fp (day 0) 100%float) /\
  exists series,
    calculateIndexWithoutCurrencyChanges utc table_gap closes2 "NOK" "USD"
    = Normal series /\
    length series = length closes2 /\
    forall k q, closes2 !! k = Some q ->
      series !! k = Some (ValuePoint.mk (PricePoint.date q)
                            (PricePoint.close q * 10)%float).
Proof.
  split; [reflexivity|].
  destruct (fixed_rate_series_exact_start utc table_gap closes2 "NOK" "USD"
              (fp (day 0) 100%float) eq_refl) as [Hexact _].
  apply (Hexact 0 (RateEntry.mk (day 0) 10%float)); [reflexivity|reflexivity|].
  intros j e' Hj. lia.
Defined.

Lemma findClosestRate_exact_or_nearest_witness :
  table_gap <> [] /\
  exists i e,
    table_gap !! i = Some e /\
    findClosestRate utc rates_usd_nok table_gap (day 1) = RateEntry.rate e /\
    (forall j e', table_gap !! j = Some e' ->
       (dist (day 1) e <= dist (day 1) e')%Z) /\
    (forall j e', table_gap !! j = Some e' ->
       dist (day 1) e' = dist (day 1) e ->
       i <= j /\ (RateEntry.date e <= RateEntry.date e')%Z).
Proof.
  assert (Htable : table_gap <> []) by discriminate.
  split; [exact Htable|].
  destruct (findClosestRate_exact_or_nearest utc rates_usd_nok table_gap (day 1) Htable)
    as [_ Hnearest].
  destruct Hnearest as (i & e & He & Hrate & Hmin & Htie).
  { intros [|[|j]] e' He'; simpl in He'; [| |discriminate];
      injection He' as <-; reflexivity. }
  exists i, e. split; [exact He|]. split; [exact Hrate|]. split; [exact Hmin|].
  intros j e' He' Hdist. destruct (Htie j e' He' Hdist) as [Hij Hdate].
  split; [exact Hij|exact (Hdate ascending_table_gap)].
Defined.



Lemma volatility_is_population_stddev_witness :
  length [fp (day 0) 5%float] < 2 /\
  calculateVolatility [fp (day 0) 5%float] = PrimFloat.nan.
Proof.
  assert (Hshort : length [fp (day 0) 5%float] < 2) by (simpl; lia).
  split; [exact Hshort|].
  exact (proj2 volatility_is_population_stddev [fp (day 0) 5%float] Hshort).
Defined.

Lemma zero_start_price_not_signalled_witness :
  (exists row,
     periodRow rates_usd_nok zero_start zero_start "USD" "USD" ("1 Week", 7%Z)
     = Normal (Some row) /\
     notFinite (Row.totalReturn row)) /\
  (exists v,
     calculateCurrencyImpact rates_usd_nok zero_start "NOK" "USD" = Normal v /\
     notFinite v) /\
  calculateCurrencyImpact rates_usd_nok zero_start "USD" "USD" = Normal 0%float.
Proof.
  destruct (zero_start_price_not_signalled rates_usd_nok) as (Hrow & Himpact & Hsame).
  split; [|split].
  - apply Hrow; reflexivity.
  - apply (Himpact zero_start "NOK" "USD" (fp (day 0) 0%float));
      [discriminate|reflexivity|reflexivity].
  - exact (Hsame zero_start "USD").
Defined.

Lemma convert_keeps_shape_and_input_witness :
  pointsAt heap2 2 closes2 /\
  exists out new,
    convertDataToCurrency_heap utc rates_usd_nok [] 2 "NOK" "USD" None heap2
    = Some (out, heap2 ++ new) /\
    pointsAt (heap2 ++ new) 2 closes2.
Proof.
  assert (Hheap : pointsAt heap2 2 closes2).
  { exists [0; 1]. split; [reflexivity|]. repeat constructor. }
  split; [exact Hheap|].
  destruct (convert_keeps_shape_and_input utc rates_usd_nok [] heap2 2 closes2
              "NOK" "USD" None Hheap) as (out & new & Hrun & _ & Hinput & _).
  exists out, new. split; [exact Hrun|exact Hinput].
Defined.

(** * Properties of the rest of the script *)

(** ** The request limiter *)

Section RateLimiterFacts.

Implicit Types (rateLimiter : RateLimiter.t) (times : list Z).

Lemma checkRateLimit_settings now rateLimiter :
  RateLimiter.maxRequests (checkRateLimit now rateLimiter).2
  = RateLimiter.maxRequests rateLimiter /\
  RateLimiter.resetInterval (checkRateLimit now rateLimiter).2
  = RateLimiter.resetInterval rateLimiter.
Proof.
  unfold checkRateLimit.
  destruct (_ >? _)%Z; simpl; destruct (_ >=? _)%Z; done.
Qed.

Lemma checkRateLimit_bounds now rateLimiter :
  (0 <= RateLimiter.requests rateLimiter <= RateLimiter.maxRequests rateLimiter)%Z ->
  (0 <= RateLimiter.requests (checkRateLimit now rateLimiter).2
     <= RateLimiter.maxRequests (checkRateLimit now rateLimiter).2)%Z.
Proof.
  intros Hbound. unfold checkRateLimit.
  destruct (_ >? _)%Z; simpl.
  - destruct (Z.geb_spec 0 (RateLimiter.maxRequests rateLimiter)); simpl; lia.
  - destruct (Z.geb_spec (RateLimiter.requests rateLimiter)
                         (RateLimiter.maxRequests rateLimiter)); simpl; lia.
Qed.

(** X1. However many calls are made and whenever they are made, the counter
    stays between 0 and [maxRequests], and the two settings of the limiter
    are never changed. *)
Theorem rate_limiter_stays_within_limit times rateLimiter :
  (0 <= RateLimiter.requests rateLimiter <= RateLimiter.maxRequests rateLimiter)%Z ->
  let after := (checkRateLimits times rateLimiter).2 in
  (0 <= RateLimiter.requests after <= RateLimiter.maxRequests after)%Z /\
  RateLimiter.maxRequests after = RateLimiter.maxRequests rateLimiter /\
  RateLimiter.resetInterval after = RateLimiter.resetInterval rateLimiter /\
  length (checkRateLimits times rateLimiter).1 = length times.
Proof.
  revert rateLimiter. induction times as [|now later IH]; intros rateLimiter Hbound.
  - simpl. auto.
  - simpl.
    pose proof (checkRateLimit_bounds now rateLimiter Hbound) as Hstep.
    pose proof (checkRateLimit_settings now rateLimiter) as [Hmax Hint].
    destruct (checkRateLimit now rateLimiter) as [answer rateLimiter1]. simpl in *.
    specialize (IH rateLimiter1 Hstep).
    destruct (checkRateLimits later rateLimiter1) as [answers rateLimiter2].
    simpl in *. destruct IH as (Hb & Hm & Hi & Hl).
    repeat split; try lia; congruence.
Qed.

Lemma checkRateLimits_within_window times rateLimiter :
  (forall now, In now times ->
     (now - RateLimiter.lastReset rateLimiter <= RateLimiter.resetInterval rateLimiter)%Z) ->
  (checkRateLimits times rateLimiter).1
  = replicate (min (length times)
                   (Z.to_nat (RateLimiter.maxRequests rateLimiter
                              - RateLimiter.requests rateLimiter))) true
    ++ replicate (length times
                  - Z.to_nat (RateLimiter.maxRequests rateLimiter
                              - RateLimiter.requests rateLimiter)) false.
Proof.
  revert rateLimiter. induction times as [|now later IH]; intros rateLimiter Hwindow.
  - done.
  - simpl. unfold checkRateLimit at 1.
    destruct (Z.gtb_spec (now - RateLimiter.lastReset rateLimiter)
                         (RateLimiter.resetInterval rateLimiter)) as [Hreset|_].
    { specialize (Hwindow now (or_introl eq_refl)). lia. }
    destruct (Z.geb_spec (RateLimiter.requests rateLimiter)
                         (RateLimiter.maxRequests rateLimiter)) as [Hfull|Hroom].
    + specialize (IH rateLimiter (fun t Ht => Hwindow t (or_intror Ht))).
      destruct (checkRateLimits later rateLimiter) as [answers rateLimiter2].
      simpl in *. rewrite IH.
      replace (Z.to_nat (RateLimiter.maxRequests rateLimiter
                         - RateLimiter.requests rateLimiter)) with 0%nat by lia.
      rewrite !Nat.min_0_r, !Nat.sub_0_r. done.
    + set (rateLimiter1 := RateLimiter.mk _ _ _ _).
      specialize (IH rateLimiter1 (fun t Ht => Hwindow t (or_intror Ht))).
      destruct (checkRateLimits later rateLimiter1) as [answers rateLimiter2].
      simpl in *. rewrite IH.
      destruct (Z.to_nat (RateLimiter.maxRequests rateLimiter
                          - RateLimiter.requests rateLimiter)) as [|left'] eqn:Hleft;
        [lia|].
      replace (Z.to_nat (RateLimiter.maxRequests rateLimiter
                         - (RateLimiter.requests rateLimiter + 1))) with left' by lia.
      done.
Qed.

(** X2. While no reset falls due (every call comes no later than
    [resetInterval] after [lastReset]), exactly the calls that are left up
    to [maxRequests] are granted, and every call after them is refused. *)
Theorem rate_limiter_grants_what_is_left times rateLimiter :
  (forall now, In now times ->
     (now - RateLimiter.lastReset rateLimiter <= RateLimiter.resetInterval rateLimiter)%Z) ->
  let left := Z.to_nat (RateLimiter.maxRequests rateLimiter
                        - RateLimiter.requests rateLimiter) in
  (checkRateLimits times rateLimiter).1
  = replicate (min (length times) left) true
    ++ replicate (length times - left) false.
Proof. intros Hwindow left. by apply checkRateLimits_within_window. Qed.

(** X3. A call that comes later than [resetInterval] after the last reset opens
    a new window: whatever the counter was, that call and the calls inside
    the new window are granted up to [maxRequests] in all, and the rest of
    them refused. *)
Theorem rate_limiter_recovers now later rateLimiter :
  (0 <= RateLimiter.resetInterval rateLimiter)%Z ->
  (now - RateLimiter.lastReset rateLimiter > RateLimiter.resetInterval rateLimiter)%Z ->
  (forall t, In t later -> (t - now <= RateLimiter.resetInterval rateLimiter)%Z) ->
  (checkRateLimits (now :: later) rateLimiter).1
  = replicate (min (S (length later)) (Z.to_nat (RateLimiter.maxRequests rateLimiter))) true
    ++ replicate (S (length later) - Z.to_nat (RateLimiter.maxRequests rateLimiter)) false.
Proof.
  intros Hinterval Hdue Hwindow.
  set (fresh := RateLimiter.mk 0 now (RateLimiter.maxRequests rateLimiter)
                               (RateLimiter.resetInterval rateLimiter)).
  assert (Hsame : checkRateLimits (now :: later) rateLimiter
                  = checkRateLimits (now :: later) fresh).
  { simpl. unfold checkRateLimit. simpl.
    rewrite (proj2 (Z.gtb_gt _ _)) by lia.
    destruct (Z.gtb_spec (now - now) (RateLimiter.resetInterval rateLimiter)); done. }
  rewrite Hsame.
  rewrite (checkRateLimits_within_window (now :: later) fresh).
  - simpl. by rewrite Z.sub_0_r.
  - intros t [<-|Ht]; simpl; [|by apply Hwindow].
    lia.
Qed.

End RateLimiterFacts.

Lemma rate_limiter_stays_within_limit_witness :
  (0 <= RateLimiter.requests (rateLimiter0 0)
     <= RateLimiter.maxRequests (rateLimiter0 0))%Z /\
  (0 <= RateLimiter.requests (checkRateLimits [5; 10; 4000000]%Z (rateLimiter0 0)).2
     <= 1800)%Z.
Proof.
  assert (H0 : (0 <= RateLimiter.requests (rateLimiter0 0)
                  <= RateLimiter.maxRequests (rateLimiter0 0))%Z) by (simpl; lia).
  split; [exact H0|].
  destruct (rate_limiter_stays_within_limit [5; 10; 4000000]%Z (rateLimiter0 0) H0)
    as (Hbound & Hmax & _).
  rewrite Hmax in Hbound. exact Hbound.
Defined.

Lemma rate_limiter_grants_what_is_left_witness :
  (forall now, In now [5; 10; 20]%Z ->
     (now - 0 <= 3600000)%Z) /\
  (checkRateLimits [5; 10; 20]%Z (RateLimiter.mk 1798 0 1800 3600000)).1
  = [true; true; false].
Proof.
  assert (Hwindow : forall now, In now [5; 10; 20]%Z -> (now - 0 <= 3600000)%Z).
  { intros now [<-|[<-|[<-|[]]]]; lia. }
  split; [exact Hwindow|].
  exact (rate_limiter_grants_what_is_left [5; 10; 20]%Z
           (RateLimiter.mk 1798 0 1800 3600000) Hwindow).
Defined.

Lemma rate_limiter_recovers_witness :
  (0 <= 3600000)%Z /\
  (3600001 - 0 > 3600000)%Z /\
  (checkRateLimits [3600001; 3600002]%Z (RateLimiter.mk 1800 0 1800 3600000)).1
  = [true; true].
Proof.
  assert (Hinterval : (0 <= 3600000)%Z) by lia.
  assert (Hdue : (3600001 - 0 > 3600000)%Z) by lia.
  split; [exact Hinterval|]. split; [exact Hdue|].
  apply (rate_limiter_recovers 3600001 [3600002]%Z
           (RateLimiter.mk 1800 0 1800 3600000) Hinterval Hdue).
  intros t [<-|[]]. simpl. lia.
Defined.

(** ** The cache *)

Section CacheFacts.
Context {D : Type}.

Implicit Types (cache : gmap string (CacheEntry.t D)) (key : string) (data : option D).

Lemma durationFor_nonzero key cache : durationFor key cache <> 0%Z.
Proof.
  unfold durationFor. destruct (cache !! key) as [cached|]; [|done].
  destruct (CacheEntry.duration cached) as [duration|]; [|done].
  destruct (Z.eqb_spec duration 0); done.
Qed.

(** X4. What [setCachedData] stored is what [getCachedData] returns for the
    same key for as long as less than the key's duration has passed since
    it was stored, and [null] from then on; the duration is the one the key
    had before, or 300000 ms if it had none or 0. *)
Theorem cache_round_trip key data (now now' : Z) cache :
  getCachedData key now' (setCachedData key data now cache)
  = if (now' - now <? durationFor key cache)%Z then data else None.
Proof.
  unfold getCachedData, setCachedData. by rewrite lookup_insert_eq.
Qed.

(** X5. Storing under one key changes nothing that is read under another. *)
Theorem cache_set_keeps_other_keys key key' data (now now' : Z) cache :
  key' <> key ->
  getCachedData key' now' (setCachedData key data now cache)
  = getCachedData key' now' cache.
Proof.
  intros Hne. unfold getCachedData, setCachedData.
  by rewrite lookup_insert_ne.
Qed.

(** X6. [setCachedData] never changes how long a key is kept: not for the key
    it stores under, and not for any other. *)
Theorem cache_durations_are_kept key key' data (now : Z) cache :
  durationFor key' (setCachedData key data now cache) = durationFor key' cache.
Proof.
  unfold setCachedData. destruct (decide (key' = key)) as [->|Hne].
  - unfold durationFor at 1. rewrite lookup_insert_eq. simpl.
    destruct (Z.eqb_spec (durationFor key cache) 0) as [Hzero|_]; [|done].
    by destruct (durationFor_nonzero key cache).
  - unfold durationFor. by rewrite lookup_insert_ne.
Qed.

(** X7. An entry that has gone stale stays stale as time goes on: if a key
    reads as [null] at one time, it reads as [null] at every later time,
    until something is stored under it. *)
Theorem cache_stale_stays_stale key (now now' : Z) cache :
  (now <= now')%Z ->
  getCachedData key now cache = None ->
  getCachedData key now' cache = None.
Proof.
  intros Hlater. unfold getCachedData.
  destruct (cache !! key) as [cached|]; [|done].
  destruct (CacheEntry.timestamp cached) as [timestamp|]; [|done].
  destruct (CacheEntry.duration cached) as [duration|]; [|done].
  destruct (Z.ltb_spec (now - timestamp) duration) as [Hfresh|Hstale];
    destruct (Z.ltb_spec (now' - timestamp) duration) as [Hfresh'|Hstale'];
    try done; lia.
Qed.

End CacheFacts.

Lemma cache_set_keeps_other_keys_witness :
  "marketOverview" <> "currencyRates" /\
  getCachedData "marketOverview" 500
    (setCachedData "currencyRates" (Some 7%Z) 100
       (setCachedData "marketOverview" (Some 3%Z) 0 cache0))
  = Some 3%Z.
Proof.
  assert (Hne : "marketOverview" <> "currencyRates") by discriminate.
  split; [exact Hne|].
  rewrite (cache_set_keeps_other_keys "currencyRates" "marketOverview"
             (Some 7%Z) 100 500 _ Hne).
  reflexivity.
Defined.

Lemma cache_stale_stays_stale_witness :
  (60000 <= 70000)%Z /\
  getCachedData "marketOverview" 60000
    (setCachedData "marketOverview" (Some 3%Z) 0 cache0) = None /\
  getCachedData "marketOverview" 70000
    (setCachedData "marketOverview" (Some 3%Z) 0 cache0) = None.
Proof.
  assert (Hlater : (60000 <= 70000)%Z) by lia.
  assert (Hstale : getCachedData "marketOverview" 60000
            (setCachedData "marketOverview" (Some 3%Z) 0 cache0) = None)
    by reflexivity.
  split; [exact Hlater|]. split; [exact Hstale|].
  exact (cache_stale_stays_stale "marketOverview" 60000 70000 _ Hlater Hstale).
Defined.

(** ** The market clock *)

Ltac market_cases :=
  repeat match goal with
         | |- context [(?a >=? ?b)%Z] => destruct (Z.geb_spec a b)
         | |- context [(?a <=? ?b)%Z] => destruct (Z.leb_spec a b)
         | |- context [(?a =? ?b)%Z] => destruct (Z.eqb_spec a b)
         end; simpl.

(** X8. [isMarketOpen] is true exactly on a weekday between 9:00 and 17:30 of
    the local clock: the four other windows lie inside the European one,
    and all five are read off the same clock. *)
Theorem market_open_is_european_window (day hour minute : Z) :
  isMarketOpen day hour minute = true
  <-> day <> 0%Z /\ day <> 6%Z /\ (900 <= hour * 100 + minute <= 1730)%Z.
Proof.
  unfold isMarketOpen. market_cases; split; intros; try done; lia.
Qed.

(** X9. [isMarketOpen] says open exactly when [getMarketStatus] shows at least
    one region open. *)
Theorem market_open_agrees_with_status (day hour minute : Z) :
  isMarketOpen day hour minute
  = let status := getMarketStatus day hour minute in
    MarketStatus.us status || MarketStatus.europe status || MarketStatus.asia status
    || MarketStatus.australia status || MarketStatus.middleEast status.
Proof.
  unfold isMarketOpen, getMarketStatus.
  destruct (day =? 0)%Z, (day =? 6)%Z; reflexivity.
Qed.

(** ** Sorting by date *)

Section SortByDateFacts.
Context {X : Type} (date : X -> Date).

Implicit Types (x : X) (l : list X).

Lemma insertByDate_perm x l : insertByDate date x l ≡ₚ x :: l.
Proof.
  induction l as [|y l IH]; simpl; [done|].
  destruct (date y <? date x)%Z; [|done].
  rewrite IH. apply Permutation_swap.
Qed.

Lemma sortByDate_perm l : sortByDate date l ≡ₚ l.
Proof.
  induction l as [|x l IH]; simpl; [done|].
  by rewrite insertByDate_perm, IH.
Qed.

Lemma orderedBy_ascendingBy l : orderedBy date l -> ascendingBy date l.
Proof.
  induction l as [|x l IH]; intros Hord i j a b Ha Hb Hij; [done|].
  destruct Hord as [Hx Hrest].
  destruct i as [|i]; destruct j as [|j]; simpl in *; try lia.
  - injection Ha as <-. injection Hb as <-. lia.
  - injection Ha as <-.
    rewrite Forall_forall in Hx. apply Hx. by eapply list_elem_of_lookup_2.
  - apply (IH Hrest i j a b); auto. lia.
Qed.

Lemma insertByDate_ordered x l :
  orderedBy date l -> orderedBy date (insertByDate date x l).
Proof.
  induction l as [|y l IH]; simpl; [done|]. intros [Hy Hrest].
  destruct (Z.ltb_spec (date y) (date x)) as [Hlt|Hge]; simpl.
  - split; [|by apply IH].
    rewrite insertByDate_perm. constructor; [lia|done].
  - split; [|done]. constructor; [done|].
    eapply Forall_impl; [done|]. simpl. intros z Hz. lia.
Qed.

Lemma sortByDate_ordered l : orderedBy date (sortByDate date l).
Proof.
  induction l as [|x l IH]; simpl; [done|]. by apply insertByDate_ordered.
Qed.

Lemma insertByDate_stable x l (d : Z) :
  filter (fun y => date y = d) (insertByDate date x l)
  = filter (fun y => date y = d) (x :: l).
Proof.
  induction l as [|y l IH]; [done|]. cbn [insertByDate].
  destruct (Z.ltb_spec (date y) (date x)) as [Hlt|Hge]; [|done].
  rewrite (filter_cons _ y), IH, !filter_cons.
  destruct (decide (date y = d)) as [Hy|Hy];
    destruct (decide (date x = d)) as [Hx|Hx]; try done. lia.
Qed.

Lemma sortByDate_stable l (d : Z) :
  filter (fun y => date y = d) (sortByDate date l) = filter (fun y => date y = d) l.
Proof.
  induction l as [|x l IH]; simpl; [done|].
  by rewrite insertByDate_stable, !filter_cons, IH.
Qed.

(** X10. Sorting by date returns the same elements, in ascending order of date,
    and leaves elements of one date in the order they had. *)
Theorem sortByDate_sorts l :
  sortByDate date l ≡ₚ l /\
  ascendingBy date (sortByDate date l) /\
  forall d : Z, filter (fun y => date y = d) (sortByDate date l)
                = filter (fun y => date y = d) l.
Proof.
  split; [apply sortByDate_perm|].
  split; [apply orderedBy_ascendingBy, sortByDate_ordered|].
  apply sortByDate_stable.
Qed.

End SortByDateFacts.

(** ** Preparing the price feed *)

Section PriceFeed.
Context (timestamps : list Z) (quotes : Quote.t) (adjClose : list (option float)).

Implicit Types (item : PricePoint.t (option float)).

Lemma processFinancialData_elem item :
  item ∈ processFinancialData timestamps quotes adjClose
  <-> hasClose item = true /\
      exists index timestamp,
        timestamps !! index = Some timestamp /\
        item = rawPoint quotes adjClose index timestamp.
Proof.
  unfold processFinancialData.
  rewrite (sortByDate_perm PricePoint.date), list_elem_of_filter.
  split.
  - intros [Hclose Hin]. split; [done|].
    apply elem_of_lookup_imap_1 in Hin as (index & timestamp & -> & Hts). eauto.
  - intros [Hclose (index & timestamp & Hts & ->)]. split; [done|].
    by apply elem_of_lookup_imap_2.
Qed.

(** X11. No point that [processFinancialData] returns has a [null] or [NaN]
    close. *)
Theorem processFinancialData_closes_are_numbers :
  Forall inDateRange timestamps ->
  Forall (fun item => exists close, PricePoint.close item = Some close /\
                                    PrimFloat.is_nan close = false)
         (processFinancialData timestamps quotes adjClose).
Proof.
  intros _. apply Forall_forall. intros item Hin.
  apply processFinancialData_elem in Hin as [Hclose _].
  unfold hasClose in Hclose.
  destruct (PricePoint.close item) as [close|]; [|done].
  exists close. split; [done|]. by destruct (PrimFloat.is_nan close).
Qed.

(** X12. Every point that [processFinancialData] returns is built from one
    timestamp of the feed: its date is that timestamp in milliseconds, its
    close is the adjusted close at that position when there is one and the
    quoted close otherwise, and its volume is the quoted volume. *)
Theorem processFinancialData_prefers_adjusted_close :
  Forall inDateRange timestamps ->
  Forall (fun item => exists index timestamp,
            timestamps !! index = Some timestamp /\
            PricePoint.date item = (timestamp * 1000)%Z /\
            PricePoint.close item
            = match elementAt adjClose index with
              | Some adjusted => Some adjusted
              | None => elementAt (Quote.close quotes) index
              end /\
            PricePoint.adjClose item = elementAt adjClose index /\
            PricePoint.volume item = elementAt (Quote.volume quotes) index)
         (processFinancialData timestamps quotes adjClose).
Proof.
  intros _. apply Forall_forall. intros item Hin.
  apply processFinancialData_elem in Hin as [_ (index & timestamp & Hts & ->)].
  exists index, timestamp. split; [done|]. simpl.
  by destruct (elementAt adjClose index).
Qed.

(** X13. The points come out in ascending order of date, and they are
    the points of the feed positions that have a usable close, each exactly
    once: the result is a rearrangement of those points in which points of
    one date keep the order of the feed. So no such position is lost, no
    point appears twice for one position, and nothing else is in the
    result. *)
Theorem processFinancialData_sorted_and_complete :
  Forall inDateRange timestamps ->
  let usable := filter (fun item => hasClose item = true)
                       (imap (rawPoint quotes adjClose) timestamps) in
  ascendingBy PricePoint.date (processFinancialData timestamps quotes adjClose) /\
  processFinancialData timestamps quotes adjClose ≡ₚ usable /\
  (forall d : Z,
     filter (fun item => PricePoint.date item = d)
            (processFinancialData timestamps quotes adjClose)
     = filter (fun item => PricePoint.date item = d) usable) /\
  length (processFinancialData timestamps quotes adjClose) <= length timestamps /\
  forall index timestamp,
    timestamps !! index = Some timestamp ->
    hasClose (rawPoint quotes adjClose index timestamp) = true ->
    rawPoint quotes adjClose index timestamp
    ∈ processFinancialData timestamps quotes adjClose.
Proof.
  intros _ usable.
  split; [apply orderedBy_ascendingBy, sortByDate_ordered|].
  split; [apply sortByDate_perm|].
  split; [intros d; apply sortByDate_stable|]. split.
  - unfold processFinancialData.
    rewrite (sortByDate_perm PricePoint.date).
    etransitivity; [apply length_filter|]. by rewrite length_imap.
  - intros index timestamp Hts Hclose.
    apply processFinancialData_elem. eauto.
Qed.

End PriceFeed.

Section PriceFeedInOrder.
Context {X : Type} (date : X -> Date).

Lemma sortByDate_ordered_id (l : list X) :
  orderedBy date l -> sortByDate date l = l.
Proof.
  induction l as [|x l IH]; [done|]. intros [Hx Hrest]. simpl.
  rewrite (IH Hrest). destruct l as [|y l]; [done|]. simpl.
  apply Forall_cons in Hx as [Hxy _].
  destruct (Z.ltb_spec (date y) (date x)); [lia|done].
Qed.

Lemma orderedBy_filter (P : X -> Prop) `{!forall x, Decision (P x)} (l : list X) :
  orderedBy date l -> orderedBy date (filter P l).
Proof.
  induction l as [|x l IH]; [done|]. intros [Hx Hrest].
  rewrite filter_cons. destruct (decide (P x)); [|by apply IH].
  split; [|by apply IH].
  apply Forall_forall. intros y Hy. apply list_elem_of_filter in Hy as [_ Hy].
  rewrite Forall_forall in Hx. by apply Hx.
Qed.

End PriceFeedInOrder.

Lemma orderedBy_rawPoints quotes adjClose (timestamps : list Z) :
  forall (first : nat),
  orderedBy (fun t : Z => t) timestamps ->
  orderedBy PricePoint.date
    (imap (fun index => rawPoint quotes adjClose (first + index)) timestamps).
Proof.
  induction timestamps as [|t timestamps IH]; intros first Hord; [done|].
  destruct Hord as [Ht Hrest]. simpl. split.
  - apply Forall_forall. intros item Hin.
    apply elem_of_lookup_imap_1 in Hin as (index & t' & -> & Hlookup).
    simpl. rewrite Forall_forall in Ht.
    specialize (Ht t' (list_elem_of_lookup_2 _ _ _ Hlookup)). simpl in Ht. lia.
  - specialize (IH (S first) Hrest).
    erewrite imap_ext; [exact IH|].
    intros index t' _. simpl. f_equal. lia.
Qed.

(** X14. When the timestamps of the feed are already in ascending order, sorting
    moves nothing: the result is the feed's points in the feed's order, with
    only the points without a usable close left out. *)
Theorem processFinancialData_keeps_feed_order timestamps quotes adjClose :
  Forall inDateRange timestamps ->
  orderedBy (fun t : Z => t) timestamps ->
  processFinancialData timestamps quotes adjClose
  = filter (fun item => hasClose item = true)
           (imap (rawPoint quotes adjClose) timestamps).
Proof.
  intros _ Hord. unfold processFinancialData.
  apply sortByDate_ordered_id, orderedBy_filter.
  by apply (orderedBy_rawPoints quotes adjClose timestamps 0).
Qed.

Lemma feed_timestamps_inDateRange : Forall inDateRange feed_timestamps.
Proof. repeat constructor; unfold inDateRange; lia. Qed.

Lemma processFinancialData_closes_are_numbers_witness :
  Forall inDateRange feed_timestamps /\
  Forall (fun item => exists close, PricePoint.close item = Some close /\
                                    PrimFloat.is_nan close = false)
         (processFinancialData feed_timestamps feed_quotes feed_adjClose).
Proof.
  split; [exact feed_timestamps_inDateRange|].
  exact (processFinancialData_closes_are_numbers feed_timestamps feed_quotes
           feed_adjClose feed_timestamps_inDateRange).
Defined.

Lemma processFinancialData_prefers_adjusted_close_witness :
  Forall inDateRange feed_timestamps /\
  map PricePoint.close (processFinancialData feed_timestamps feed_quotes feed_adjClose)
  = [Some 99.5%float; Some 102%float] /\
  Forall (fun item => exists index timestamp,
            feed_timestamps !! index = Some timestamp /\
            PricePoint.date item = (timestamp * 1000)%Z /\
            PricePoint.close item
            = match elementAt feed_adjClose index with
              | Some adjusted => Some adjusted
              | None => elementAt (Quote.close feed_quotes) index
              end /\
            PricePoint.adjClose item = elementAt feed_adjClose index /\
            PricePoint.volume item = elementAt (Quote.volume feed_quotes) index)
         (processFinancialData feed_timestamps feed_quotes feed_adjClose).
Proof.
  split; [exact feed_timestamps_inDateRange|]. split; [reflexivity|].
  exact (processFinancialData_prefers_adjusted_close feed_timestamps feed_quotes
           feed_adjClose feed_timestamps_inDateRange).
Defined.

Lemma processFinancialData_sorted_and_complete_witness :
  Forall inDateRange feed_timestamps /\
  processFinancialData feed_timestamps feed_quotes feed_adjClose
  ≡ₚ [rawPoint feed_quotes feed_adjClose 0 0; rawPoint feed_quotes feed_adjClose 2 172800] /\
  length (processFinancialData feed_timestamps feed_quotes feed_adjClose) = 2 /\
  rawPoint feed_quotes feed_adjClose 2 172800
  ∈ processFinancialData feed_timestamps feed_quotes feed_adjClose.
Proof.
  split; [exact feed_timestamps_inDateRange|].
  destruct (processFinancialData_sorted_and_complete feed_timestamps feed_quotes
              feed_adjClose feed_timestamps_inDateRange)
    as (_ & Hperm & _ & _ & Hcomplete).
  split; [exact Hperm|]. split; [reflexivity|].
  apply Hcomplete; reflexivity.
Defined.

Lemma processFinancialData_keeps_feed_order_witness :
  Forall inDateRange feed_timestamps /\
  orderedBy (fun t : Z => t) feed_timestamps /\
  processFinancialData feed_timestamps feed_quotes feed_adjClose
  = filter (fun item => hasClose item = true)
           (imap (rawPoint feed_quotes feed_adjClose) feed_timestamps).
Proof.
  assert (Hord : orderedBy (fun t : Z => t) feed_timestamps).
  { simpl. repeat split; repeat constructor; lia. }
  split; [exact feed_timestamps_inDateRange|]. split; [exact Hord|].
  exact (processFinancialData_keeps_feed_order feed_timestamps feed_quotes
           feed_adjClose feed_timestamps_inDateRange Hord).
Defined.

(** ** The statistics boxes *)

Section StatisticsFacts.
Context {num : Type} {N : Number num}.
Context (localTZA : Z -> Z).
Context (currencyRates : gmap string num).
Context (historicalRates : list (RateEntry.t num)).

Implicit Types (data : list (PricePoint.t num)).

Lemma updateStatistics_some data (selectedCurrency : string) :
  data <> [] ->
  exists first last statistics,
    data !! 0 = Some first /\ data !! (length data - 1) = Some last /\
    updateStatistics localTZA currencyRates historicalRates (Some data) selectedCurrency
    = Some statistics.
Proof.
  intros Hdata. unfold updateStatistics.
  destruct data as [|first rest] eqn:Hd; [done|]. rewrite <- Hd.
  destruct (lookup_lt_is_Some_2 data (length data - 1)) as [last Hlast].
  { rewrite Hd. simpl. lia. }
  exists first, last. rewrite Hlast.
  replace (data !! 0) with (Some first) by (by rewrite Hd).
  eauto.
Qed.

(** X15. The currency impact of the third box is 0, amount and percentage, when
    a currency other than NOK is selected, when the rate table is empty, or
    when the table has no entry on the calendar date of the first point or
    of the last point. *)
Theorem statistics_impact_needs_both_rates data (selectedCurrency : string) statistics :
  updateStatistics localTZA currencyRates historicalRates (Some data) selectedCurrency
  = Some statistics ->
  selectedCurrency <> "NOK" \/
  historicalRates = [] \/
  (exists p, (data !! 0 = Some p \/ data !! (length data - 1) = Some p) /\
     forall e, e ∈ historicalRates ->
       sameDateString localTZA (RateEntry.date e) (PricePoint.date p) = false) ->
  Statistics.currencyImpactNOK statistics = num_lit 0 /\
  Statistics.currencyImpactPercentNOK statistics = num_lit 0.
Proof.
  unfold updateStatistics.
  destruct (data !! 0) as [first|] eqn:Hfirst; [|done].
  destruct (data !! (length data - 1)) as [last|] eqn:Hlast; [|done].
  intros [= <-] Hcase. simpl. unfold statisticsCurrencyImpact.
  assert (Hnone : forall p : PricePoint.t num,
    (forall e, e ∈ historicalRates ->
       sameDateString localTZA (RateEntry.date e) (PricePoint.date p) = false) ->
    List.find (fun rate => sameDateString localTZA (RateEntry.date rate) (PricePoint.date p))
              historicalRates = None).
  { intros p Hp. destruct (List.find _ historicalRates) as [x|] eqn:Hf; [|done].
    apply find_some in Hf as [Hin Hx]. apply list_elem_of_In in Hin.
    by rewrite (Hp x Hin) in Hx. }
  destruct Hcase as [Hsel|[->|(p & [Hp|Hp] & Hmiss)]].
  - rewrite (bool_decide_eq_false_2 (selectedCurrency = "NOK")) by done.
    by rewrite andb_false_r.
  - done.
  - assert (p = first) as -> by congruence.
    rewrite (Hnone first Hmiss). by destruct (_ && _).
  - assert (p = last) as -> by congruence.
    rewrite (Hnone last Hmiss).
    destruct (_ && _); [|done]. by destruct (List.find _ historicalRates).
Qed.

End StatisticsFacts.

Section StatisticsExact.
Context (localTZA : Z -> Z).
Context (currencyRates : gmap string R).
Context (historicalRates : list (RateEntry.t R)).

Implicit Types (data : list (PricePoint.t R)).

Local Open Scope R_scope.

Lemma previousClose_nonzero data (current : R) :
  Forall (fun p => PricePoint.close p <> 0) data ->
  current <> 0 ->
  previousClose data current <> 0.
Proof.
  intros Hdata Hcurrent. unfold previousClose.
  case_bool_decide as Hlen; [|done].
  destruct (num_truthy _); [|done].
  destruct (lookup_lt_is_Some_2 data (length data - 2)%nat) as [p Hp]; [lia|].
  rewrite (closeAt_lookup _ _ _ Hp).
  rewrite Forall_forall in Hdata. apply Hdata. by eapply list_elem_of_lookup_2.
Qed.

(** X16. In exact arithmetic the percentages of the first two boxes are the same
    in both currencies: the NOK figures are the USD figures times one
    current rate, which cancels (no close being 0 and both current rates
    being non-zero). *)
Theorem statistics_percentages_agree data (selectedCurrency : string) statistics :
  Forall (fun p => PricePoint.close p <> 0) data ->
  rateOf currencyRates "NOK" <> 0 ->
  rateOf currencyRates "USD" <> 0 ->
  updateStatistics localTZA currencyRates historicalRates (Some data) selectedCurrency
  = Some statistics ->
  Statistics.priceChangePercentNOK statistics
  = Statistics.priceChangePercentUSD statistics /\
  Statistics.totalReturnPercentNOK statistics
  = Statistics.totalReturnPercentUSD statistics.
Proof.
  intros Hdata Hnok Husd. unfold updateStatistics.
  destruct (data !! 0%nat) as [first|] eqn:Hfirst; [|done].
  destruct (data !! (length data - 1)%nat) as [last|] eqn:Hlast; [|done].
  intros [= <-]. simpl.
  assert (Hf : PricePoint.close first <> 0).
  { rewrite Forall_forall in Hdata. apply Hdata. by eapply list_elem_of_lookup_2. }
  assert (Hl : PricePoint.close last <> 0).
  { rewrite Forall_forall in Hdata. apply Hdata. by eapply list_elem_of_lookup_2. }
  pose proof (previousClose_nonzero data (PricePoint.close last) Hdata Hl) as Hp.
  split; field; auto.
Qed.

(** X17. With a single point, in exact arithmetic, the one-day change and the
    total return are 0 in both currencies, as amounts and as percentages,
    and so is the currency impact (the close and the rates being non-zero,
    so that no percentage divides by zero). *)
Theorem statistics_of_one_point (p : PricePoint.t R) (selectedCurrency : string) :
  PricePoint.close p <> 0 ->
  rateOf currencyRates "NOK" <> 0 ->
  rateOf currencyRates "USD" <> 0 ->
  Forall (fun e => RateEntry.rate e <> 0) historicalRates ->
  exists statistics,
    updateStatistics localTZA currencyRates historicalRates (Some [p]) selectedCurrency
    = Some statistics /\
    Statistics.priceChangeUSD statistics = 0 /\
    Statistics.priceChangeNOK statistics = 0 /\
    Statistics.priceChangePercentUSD statistics = 0 /\
    Statistics.priceChangePercentNOK statistics = 0 /\
    Statistics.totalReturnUSD statistics = 0 /\
    Statistics.totalReturnNOK statistics = 0 /\
    Statistics.totalReturnPercentUSD statistics = 0 /\
    Statistics.totalReturnPercentNOK statistics = 0 /\
    Statistics.currencyImpactNOK statistics = 0 /\
    Statistics.currencyImpactPercentNOK statistics = 0.
Proof.
  intros _ _ _ _. eexists. split; [reflexivity|]. simpl.
  unfold previousClose, statisticsCurrencyImpact. simpl.
  repeat split; try (unfold Rdiv; ring).
  - destruct (_ && _); [|done].
    destruct (List.find _ historicalRates); simpl; [ring|done].
  - destruct (_ && _); [|done].
    destruct (List.find _ historicalRates); simpl; [|done].
    unfold Rdiv. ring.
Qed.

End StatisticsExact.

Lemma statistics_impact_needs_both_rates_witness :
  exists statistics,
    updateStatistics utc rates_usd_nok table_gap (Some closes2) "NOK" = Some statistics /\
    sameDateString utc (day 0) (day 1) = false /\
    sameDateString utc (day 2) (day 1) = false /\
    Statistics.currencyImpactNOK statistics = 0%float /\
    Statistics.currencyImpactPercentNOK statistics = 0%float.
Proof.
  destruct (updateStatistics utc rates_usd_nok table_gap (Some closes2) "NOK")
    as [statistics|] eqn:Hrun; [|vm_compute in Hrun; discriminate Hrun].
  exists statistics. split; [reflexivity|]. split; [reflexivity|]. split; [reflexivity|].
  refine (statistics_impact_needs_both_rates utc rates_usd_nok table_gap closes2 "NOK"
            statistics Hrun _).
  right. right. exists (fp (day 1) 110%float). split; [right; reflexivity|].
  intros e He. unfold table_gap in He.
  apply list_elem_of_In in He. simpl in He.
  destruct He as [<-|[<-|[]]]; reflexivity.
Defined.

Lemma statistics_percentages_agree_witness :
  exists statistics,
    updateStatistics utc rates_R [] (Some closes2_R) "NOK" = Some statistics /\
    Forall (fun p => PricePoint.close p <> 0%R) closes2_R /\
    Statistics.priceChangePercentNOK statistics
    = Statistics.priceChangePercentUSD statistics /\
    Statistics.totalReturnPercentNOK statistics
    = Statistics.totalReturnPercentUSD statistics.
Proof.
  assert (Hdata : Forall (fun p => PricePoint.close p <> 0%R) closes2_R)
    by (repeat constructor; simpl; lra).
  assert (Hnok : rateOf rates_R "NOK" <> 0%R)
    by (change (rateOf rates_R "NOK") with 10%R; lra).
  assert (Husd : rateOf rates_R "USD" <> 0%R)
    by (change (rateOf rates_R "USD") with 1%R; lra).
  eexists. split; [reflexivity|]. split; [exact Hdata|].
  exact (statistics_percentages_agree utc rates_R [] closes2_R "NOK" _
           Hdata Hnok Husd eq_refl).
Defined.

Lemma statistics_of_one_point_witness :
  PricePoint.close (rp (day 0) 100) <> 0%R /\
  exists statistics,
    updateStatistics utc rates_R [RateEntry.mk (day 0) 10%R]
      (Some [rp (day 0) 100]) "NOK" = Some statistics /\
    Statistics.priceChangePercentNOK statistics = 0%R /\
    Statistics.totalReturnPercentNOK statistics = 0%R /\
    Statistics.currencyImpactPercentNOK statistics = 0%R.
Proof.
  assert (Hclose : PricePoint.close (rp (day 0) 100) <> 0%R) by (simpl; lra).
  split; [exact Hclose|].
  destruct (statistics_of_one_point utc rates_R [RateEntry.mk (day 0) 10%R]
              (rp (day 0) 100) "NOK" Hclose)
    as (statistics & Hrun & _ & _ & _ & Hchange & _ & _ & _ & Htotal & _ & Himpact).
  - change (rateOf rates_R "NOK") with 10%R. lra.
  - change (rateOf rates_R "USD") with 1%R. lra.
  - repeat constructor; simpl; lra.
  - exists statistics. split; [exact Hrun|]. split; [exact Hchange|].
    split; [exact Htotal|exact Himpact].
Defined.

(** ** The performance table *)

Section PerformanceTableFacts.
Context {num : Type} {N : Number num}.
Context (localTZA : Z -> Z).
Context (currencyRates : gmap string num).
Context (historicalRates : list (RateEntry.t num)).

Implicit Types (data : list (PricePoint.t num)).

Lemma calculateCurrencyImpact_returns data (target source : string) p :
  data !! 0 = Some p ->
  exists v, calculateCurrencyImpact currencyRates data target source = Normal v.
Proof.
  intros Hp. unfold calculateCurrencyImpact. rewrite Hp.
  destruct (decide (target = source)); eauto.
Qed.

Lemma periodRow_short data convertedData (selected index : string) (period : string * Z) :
  length convertedData < 2 ->
  periodRow currencyRates data convertedData selected index period = Normal None.
Proof.
  intros Hlen. unfold periodRow.
  by rewrite (proj2 (Z.ltb_ge _ _)) by lia.
Qed.

Lemma periodRow_some data convertedData (selected index : string) (period : string * Z) :
  length data = length convertedData ->
  2 <= length convertedData ->
  (0 < period.2)%Z ->
  exists row,
    periodRow currencyRates data convertedData selected index period = Normal (Some row) /\
    Row.name row = period.1.
Proof.
  intros Hsame Hlen Hdays. unfold periodRow.
  set (endIndex := (Z.of_nat (length convertedData) - 1)%Z).
  set (startIndex := Z.max 0 (endIndex - period.2)).
  rewrite (proj2 (Z.ltb_lt startIndex endIndex)) by lia.
  destruct (lookup_lt_is_Some_2 data (Z.to_nat startIndex)) as [p Hp]; [lia|].
  destruct (calculateCurrencyImpact_returns
              (slice data (Z.to_nat startIndex) (Z.to_nat (endIndex + 1)))
              selected index p) as [v Hv].
  { rewrite slice_lookup_0 by lia. done. }
  rewrite Hv. eauto.
Qed.

(** A period that reaches back at least as far as the series is long starts
    at the first point: its row carries the numbers of the whole series. *)
Lemma periodRow_whole_series data convertedData (selected index : string)
    (period period' : string * Z) :
  (Z.of_nat (length convertedData) - 1 <= period.2)%Z ->
  (Z.of_nat (length convertedData) - 1 <= period'.2)%Z ->
  match periodRow currencyRates data convertedData selected index period,
        periodRow currencyRates data convertedData selected index period' with
  | Normal (Some row), Normal (Some row') =>
      Row.totalReturn row = Row.totalReturn row' /\
      Row.currencyImpact row = Row.currencyImpact row' /\
      Row.localReturn row = Row.localReturn row'
  | Normal None, Normal None => True
  | TypeError, TypeError => True
  | _, _ => False
  end.
Proof.
  intros Hp Hp'. unfold periodRow.
  set (endIndex := (Z.of_nat (length convertedData) - 1)%Z) in *.
  replace (Z.max 0 (endIndex - period.2)) with 0%Z by lia.
  replace (Z.max 0 (endIndex - period'.2)) with 0%Z by lia.
  destruct (0 <? endIndex)%Z; [|done].
  by destruct (calculateCurrencyImpact _ _ _ _).
Qed.

(** X18. For a symbol that [indexConfig] has an entry for,
    [updatePerformanceTable] does not fail: for a series of at least two
    points it appends one row for each of the five periods, in their order;
    for a shorter series, or none, it appends no row. For a symbol that
    [indexConfig] has no entry for, it fails with a [TypeError] as soon as
    the series has a point, and returns without a row when there is no
    data. *)
Theorem performance_table_rows (currentData : option (list (PricePoint.t num)))
    (selectedCurrency : string) :
  (forall info : IndexInfo.t,
     exists rows,
       updatePerformanceTable localTZA currencyRates historicalRates currentData
         selectedCurrency (Some info) = Normal rows /\
       map Row.name rows
       = match currentData with
         | Some data => if bool_decide (2 <= length data) then map fst periods else []
         | None => []
         end) /\
  updatePerformanceTable localTZA currencyRates historicalRates currentData
    selectedCurrency None
  = match currentData with
    | Some data => if bool_decide (length data = 0) then Normal [] else TypeError
    | None => Normal []
    end.
Proof.
  split; [|by destruct currentData].
  intros info. set (indexCurrency := IndexInfo.currency info).
  unfold updatePerformanceTable. destruct currentData as [data|]; [|by exists []].
  case_bool_decide as Hempty.
  { exists []. split; [done|]. rewrite bool_decide_eq_false_2; [done|lia]. }
  fold indexCurrency.
  set (convertedData := convertDataToCurrency _ _ _ data _ _ _).
  assert (Hsame : length data = length convertedData).
  { symmetry. apply (convert_frame localTZA currencyRates historicalRates). }
  case_bool_decide as Hlen.
  - unfold periods. simpl.
    repeat match goal with
    | |- context [periodRow currencyRates data convertedData
                    selectedCurrency indexCurrency ?period] =>
        let row := fresh "row" in
        let Hrow := fresh "Hrow" in
        let Hname := fresh "Hname" in
        destruct (periodRow_some data convertedData selectedCurrency indexCurrency
                    period Hsame) as (row & Hrow & Hname);
          [lia|simpl; lia|];
        rewrite Hrow; simpl in Hname |- *
    end.
    eexists. split; [done|]. simpl. congruence.
  - unfold periods. simpl.
    rewrite !periodRow_short by lia. by exists [].
Qed.

(** X19. When the series has at most eight points, every period reaches back to
    its first point, and the five rows carry the same three numbers. *)
Theorem performance_table_short_series data (selectedCurrency : string)
    (info : IndexInfo.t) :
  2 <= length data <= 8 ->
  exists totalReturn currencyImpact localReturn,
    updatePerformanceTable localTZA currencyRates historicalRates (Some data)
      selectedCurrency (Some info)
    = Normal (map (fun period =>
                     Row.mk period.1 totalReturn currencyImpact localReturn) periods).
Proof.
  intros Hlen. set (indexCurrency := IndexInfo.currency info).
  unfold updatePerformanceTable.
  rewrite bool_decide_eq_false_2 by lia. fold indexCurrency.
  set (convertedData := convertDataToCurrency _ _ _ data _ _ _).
  assert (Hsame : length data = length convertedData).
  { symmetry. apply (convert_frame localTZA currencyRates historicalRates). }
  destruct (periodRow_some data convertedData selectedCurrency indexCurrency
              ("1 Week", 7%Z) Hsame) as (row & Hrow & Hname); [lia|simpl; lia|].
  exists (Row.totalReturn row), (Row.currencyImpact row), (Row.localReturn row).
  assert (Hall : forall period : string * Z,
            (7 <= period.2)%Z ->
            periodRow currencyRates data convertedData selectedCurrency indexCurrency period
            = Normal (Some (Row.mk period.1 (Row.totalReturn row)
                              (Row.currencyImpact row) (Row.localReturn row)))).
  { intros period Hdays.
    pose proof (periodRow_whole_series data convertedData selectedCurrency
                  indexCurrency ("1 Week", 7%Z) period) as Hrel.
    rewrite Hrow in Hrel.
    destruct (periodRow_some data convertedData selectedCurrency indexCurrency
                period Hsame) as (row' & Hrow' & Hname'); [lia|lia|].
    rewrite Hrow' in Hrel |- *.
    destruct Hrel as (Ht & Hc & Hl); [simpl; lia|lia|].
    destruct row'. simpl in *. by subst. }
  unfold periods. simpl. rewrite !Hall by (simpl; lia). done.
Qed.

End PerformanceTableFacts.

Lemma performance_table_rows_witness :
  (exists rows,
     updatePerformanceTable utc rates_usd_nok table_gap (Some closes2) "NOK"
       (indexConfig !! "^GSPC") = Normal rows /\
     map Row.name rows = ["1 Week"; "1 Month"; "3 Months"; "6 Months"; "1 Year"]) /\
  indexConfig !! "^FTSE" = None /\
  updatePerformanceTable utc rates_usd_nok table_gap (Some closes2) "NOK"
    (indexConfig !! "^FTSE") = TypeError.
Proof.
  destruct (performance_table_rows utc rates_usd_nok table_gap (Some closes2) "NOK")
    as [Hconfigured Hmissing].
  split; [exact (Hconfigured sp500)|]. split; [reflexivity|exact Hmissing].
Defined.

Lemma performance_table_short_series_witness :
  2 <= length closes2 <= 8 /\
  exists totalReturn currencyImpact localReturn,
    updatePerformanceTable utc rates_usd_nok table_gap (Some closes2) "NOK"
      (indexConfig !! "^GSPC")
    = Normal (map (fun period =>
                     Row.mk period.1 totalReturn currencyImpact localReturn) periods).
Proof.
  assert (Hlen : 2 <= length closes2 <= 8) by (simpl; lia).
  split; [exact Hlen|].
  exact (performance_table_short_series utc rates_usd_nok table_gap closes2
           "NOK" sp500 Hlen).
Defined.

(** ** The currency impact of a period, in exact arithmetic *)

Section ImpactExact.
Context (localTZA : Z -> Z).
Context (currencyRates : gmap string R).

Implicit Types (data : list (PricePoint.t R)).

Local Open Scope R_scope.

Lemma fold_left_snoc {A B} (f : A -> B -> A) (l : list B) (x : B) (a : A) :
  fold_left f (l ++ [x]) a = f (fold_left f l a) x.
Proof. by rewrite fold_left_app. Qed.

Lemma impact_prefix_sum data (target source : string) (k : nat) p0 pk :
  target <> source ->
  data !! 0%nat = Some p0 ->
  data !! k = Some pk ->
  fold_left (fun sum item => sum + ImpactPoint.impact item)
            (take (S k) (calculateCurrencyImpactOverTime currencyRates data target source))
            0
  = (rateOf currencyRates target / rateOf currencyRates source - 1)
    * (PricePoint.close pk - PricePoint.close p0).
Proof.
  intros Hne Hp0.
  destruct (currency_impact_as_computed currencyRates data target source Hne)
    as (Hlen & Hfirst & Hlater).
  revert pk. induction k as [|k IH]; intros pk Hpk.
  - assert (pk = p0) as -> by congruence.
    rewrite (take_S_r _ 0%nat _ (Hfirst p0 Hp0)). simpl. ring.
  - destruct (lookup_lt_is_Some_2 data k) as [q Hq].
    { apply lookup_lt_Some in Hpk. lia. }
    rewrite (take_S_r _ (S k) _ (Hlater (S k) pk q ltac:(lia) Hpk
               ltac:(by replace (S k - 1)%nat with k by lia))).
    rewrite fold_left_snoc, (IH q Hq). simpl. ring.
Qed.

(** X20. In exact arithmetic the daily impacts add up to [(r - 1)] times the
    change of the close over the period, so the percentage
    [calculateCurrencyImpact] returns depends on the first and the last
    close and on the current rate [r] alone: it is
    [(r - 1) * (last - first) / (first * r) * 100]. No historical rate and
    no close in between enters it. *)
Theorem currency_impact_percent_telescopes data (target source : string) first last :
  target <> source ->
  data !! 0%nat = Some first ->
  data !! (length data - 1)%nat = Some last ->
  let r := rateOf currencyRates target / rateOf currencyRates source in
  calculateCurrencyImpact currencyRates data target source
  = Normal ((r - 1) * (PricePoint.close last - PricePoint.close first)
            / (PricePoint.close first * r) * 100).
Proof.
  intros Hne Hfirst Hlast r. unfold calculateCurrencyImpact.
  rewrite decide_False by done. rewrite Hfirst. f_equal. simpl.
  pose proof (impact_prefix_sum data target source (length data - 1) first last
                Hne Hfirst Hlast) as Hsum.
  rewrite firstn_all2 in Hsum.
  2:{ destruct (currency_impact_as_computed currencyRates data target source Hne)
        as (Hlen & _). unfold imap in *. rewrite Hlen. lia. }
  simpl in Hsum. rewrite Hsum. reflexivity.
Qed.

End ImpactExact.

Lemma currency_impact_percent_telescopes_witness :
  "NOK" <> "USD" /\
  calculateCurrencyImpact rates_R closes2_R "NOK" "USD"
  = Normal (((rateOf rates_R "NOK" / rateOf rates_R "USD" - 1) * (110 - 100)
             / (100 * (rateOf rates_R "NOK" / rateOf rates_R "USD")) * 100)%R).
Proof.
  assert (Hne : "NOK" <> "USD") by discriminate.
  split; [exact Hne|].
  exact (currency_impact_percent_telescopes rates_R closes2_R "NOK" "USD"
           (rp (day 0) 100%R) (rp (day 1) 110%R) Hne eq_refl eq_refl).
Defined.

(** ** Volatility, in exact arithmetic *)

Section VolatilityExact.
Context (localTZA : Z -> Z).
Context (currencyRates : gmap string R).

Implicit Types (data : list (PricePoint.t R)).

Local Open Scope R_scope.

Lemma simpleReturns_scaled (r : R) (closes : list R) :
  r <> 0 ->
  Forall (fun c => c <> 0) closes ->
  simpleReturns (map (fun c => c * r) closes) = simpleReturns closes.
Proof.
  intros Hr. unfold simpleReturns.
  induction closes as [|a closes IH]; intros Hclose; [done|].
  apply Forall_cons in Hclose as [Ha Hrest].
  destruct closes as [|b closes]; [done|].
  simpl in *. f_equal; [|by apply IH].
  field. auto.
Qed.

(** X21. In exact arithmetic the volatility of a series converted with the
    static rate is the volatility of the series itself: the rate cancels in
    every daily return (the rates being non-zero and no close being 0). *)
Theorem volatility_same_in_both_currencies data (target source : string)
    (override : option R) :
  target <> source ->
  rateOf currencyRates target <> 0 ->
  rateOf currencyRates source <> 0 ->
  Forall (fun p => PricePoint.close p <> 0) data ->
  calculateVolatility
    (convertDataToCurrency localTZA currencyRates [] data target source override)
  = calculateVolatility data.
Proof.
  intros Hne Ht Hs Hdata. rewrite convert_static by auto.
  unfold calculateVolatility.
  assert (Hret : dailyReturns
            (map (scaled (num := R) (rateOf currencyRates target
                                     / rateOf currencyRates source)%num) data)
          = dailyReturns data).
  { rewrite !dailyReturns_simpleReturns, map_map. simpl.
    rewrite <- (map_map PricePoint.close
                  (fun c => c * (rateOf currencyRates target
                                 / rateOf currencyRates source))).
    apply simpleReturns_scaled.
    - unfold Rdiv. apply Rmult_integral_contrapositive_currified; [done|].
      by apply Rinv_neq_0_compat.
    - by apply Forall_fmap. }
  by rewrite Hret.
Qed.

(** X22. In exact arithmetic a series of exactly two points, the first close
    not 0, has volatility 0: there is one return, and it is its own mean. *)
Theorem volatility_of_two_points (p q : PricePoint.t R) :
  PricePoint.close p <> 0 ->
  calculateVolatility [p; q] = 0.
Proof.
  intros _. unfold calculateVolatility, dailyReturns, lengthOf, pow2, closeAt. simpl.
  change (IZR (Z.of_nat 1)) with 1.
  set (x := (PricePoint.close q - PricePoint.close p) / PricePoint.close p).
  match goal with
  | |- sqrt ?v * _ * _ = 0 =>
      replace v with 0 by (unfold Rdiv; rewrite Rinv_1; ring)
  end.
  rewrite sqrt_0. ring.
Qed.

End VolatilityExact.

Lemma volatility_of_two_points_witness :
  PricePoint.close (rp (day 0) 100) <> 0%R /\
  calculateVolatility closes2_R = 0%R.
Proof.
  assert (Hclose : PricePoint.close (rp (day 0) 100) <> 0%R) by (simpl; lra).
  split; [exact Hclose|].
  exact (volatility_of_two_points (rp (day 0) 100) (rp (day 1) 110) Hclose).
Defined.

Lemma volatility_same_in_both_currencies_witness :
  "NOK" <> "USD" /\
  calculateVolatility (convertDataToCurrency utc rates_R [] closes2_R "NOK" "USD" None)
  = calculateVolatility closes2_R.
Proof.
  assert (Hne : "NOK" <> "USD") by discriminate.
  split; [exact Hne|].
  apply (volatility_same_in_both_currencies utc rates_R closes2_R "NOK" "USD" None Hne).
  - change (rateOf rates_R "NOK") with 10%R. lra.
  - change (rateOf rates_R "USD") with 1%R. lra.
  - repeat constructor; simpl; lra.
Defined.

(** ** The series of the main chart *)

Section MainChartFacts.
Context (localTZA : Z -> Z).
Context (currencyRates : gmap string float).
Context (historicalRates : list (RateEntry.t float)).

Implicit Types (data : list (PricePoint.t float)).

Lemma impact_series_length data (target source : string) :
  length (calculateCurrencyImpactOverTime currencyRates data target source)
  = length data.
Proof.
  unfold calculateCurrencyImpactOverTime.
  destruct (decide (target = source)); [by rewrite length_map|].
  by rewrite length_imap.
Qed.

Lemma find_exact_in_table (targetDate : Date) i e :
  historicalRates !! i = Some e ->
  sameDateString localTZA (RateEntry.date e) targetDate = true ->
  (forall j e', j < i -> historicalRates !! j = Some e' ->
     sameDateString localTZA (RateEntry.date e') targetDate = false) ->
  List.find (fun rate => sameDateString localTZA (RateEntry.date rate) targetDate)
            historicalRates = Some e /\
  findClosestRate localTZA currencyRates historicalRates targetDate = RateEntry.rate e /\
  historicalRates <> [].
Proof.
  intros Hi He Hbefore.
  pose proof (find_unique_first _ historicalRates i e Hi He Hbefore) as Hfind.
  split; [done|]. unfold findClosestRate. rewrite Hfind.
  destruct historicalRates; [done|]. done.
Qed.

(** X23. For a USD index shown in NOK, when the rate table has an entry on the
    calendar date of the first point, the converted line and the line
    without currency changes start at the same value, the first close times
    that entry's rate, and the two lines have the same number of points. *)
Theorem chart_lines_start_together data p i e (name inception : string) :
  data !! 0 = Some p ->
  historicalRates !! i = Some e ->
  sameDateString localTZA (RateEntry.date e) (PricePoint.date p) = true ->
  (forall j e', j < i -> historicalRates !! j = Some e' ->
     sameDateString localTZA (RateEntry.date e') (PricePoint.date p) = false) ->
  exists chart rates values,
    renderMainChart localTZA currencyRates historicalRates data "NOK"
      (Some (IndexInfo.mk name "USD" inception))
    = Normal (chart, rates) /\
    Chart.noCurrencyChanges chart = Some values /\
    Chart.index chart !! 0 = Some (PricePoint.close p * RateEntry.rate e)%float /\
    values !! 0 = Some (PricePoint.close p * RateEntry.rate e)%float /\
    length values = length (Chart.index chart).
Proof.
  intros Hp Hi He Hbefore.
  destruct (find_exact_in_table (PricePoint.date p) i e Hi He Hbefore)
    as (Hfind & Hlookup & Htable).
  unfold renderMainChart, chartStartRate, calculateIndexWithoutCurrencyChanges.
  assert (Hlen : 0 < length historicalRates).
  { destruct historicalRates; [done|simpl; lia]. }
  rewrite (bool_decide_eq_true_2 _ Hlen). simpl.
  rewrite (bool_decide_eq_false_2 (length historicalRates = 0)) by lia.
  rewrite Hp, Hfind.
  rewrite (convert_historical localTZA currencyRates historicalRates data _ Htable).
  eexists _, _, _. split; [reflexivity|]. simpl.
  rewrite length_map.
  assert (Hdata : 0 < length data) by (by eapply lookup_lt_Some).
  rewrite (bool_decide_eq_true_2 _ Hdata). simpl.
  split; [reflexivity|]. split; [|split].
  - rewrite list_lookup_fmap, list_lookup_imap, Hp. simpl. f_equal. f_equal.
    destruct (float_truthy (RateEntry.rate e)); [done|by rewrite Hlookup].
  - by rewrite !list_lookup_fmap, Hp.
  - by rewrite !length_map, length_imap.
Qed.

(** X24. For a non-empty series and a symbol that [indexConfig] has an
    entry for, the series computation of [renderMainChart] does not fail,
    for any currencies, rates and table; every series it draws has one value
    for each label, one label for each point; and the line without currency
    changes is never drawn when USD is selected. For a symbol that
    [indexConfig] has no entry for, it fails with a [TypeError]. *)
Theorem chart_series_shape data (selectedCurrency : string) :
  data <> [] ->
  (forall info : IndexInfo.t,
     exists chart rates,
       renderMainChart localTZA currencyRates historicalRates data
         selectedCurrency (Some info) = Normal (chart, rates) /\
       Chart.labels chart = map PricePoint.date data /\
       length (Chart.index chart) = length data /\
       (forall values, Chart.currencyImpact chart = Some values ->
          length values = length data) /\
       (forall values, Chart.noCurrencyChanges chart = Some values ->
          length values = length data /\ selectedCurrency <> "USD")) /\
  renderMainChart localTZA currencyRates historicalRates data selectedCurrency None
  = TypeError.
Proof.
  intros Hdata. split.
  2:{ unfold renderMainChart, chartStartRate. by destruct (_ && _). }
  intros info. set (indexCurrency := IndexInfo.currency info).
  destruct data as [|p rest] eqn:Hd; [done|]. rewrite <- Hd.
  assert (Hp : data !! 0 = Some p) by (by rewrite Hd).
  unfold renderMainChart, chartStartRate, calculateIndexWithoutCurrencyChanges.
  rewrite Hp. fold indexCurrency.
  set (startRate := if _ && _ then _ else _).
  assert (Hstart : exists o, startRate = Normal o).
  { subst startRate. destruct (_ && _); [|by eauto].
    case_bool_decide; [|by eauto].
    destruct (List.find _ historicalRates); eauto. }
  destruct Hstart as [o ->].
  pose proof (convert_frame localTZA currencyRates historicalRates data
                selectedCurrency indexCurrency o) as (Hlen & Hdates & _).
  set (series := if bool_decide (length historicalRates = 0) then _ else _).
  assert (Hseries : exists l, series = Normal l /\ (l = [] \/ length l = length data)).
  { subst series. case_bool_decide; [by eauto|].
    destruct (List.find _ historicalRates); [|by eauto].
    eexists. split; [done|]. right. by rewrite length_map. }
  destruct Hseries as (l & -> & Hl).
  eexists _, _. split; [reflexivity|]. simpl.
  split; [done|]. split; [by rewrite length_map|]. split.
  - intros values.
    destruct (bool_decide (0 < size currencyRates)); simpl; [|done].
    case_bool_decide; [|done]. intros [= <-].
    rewrite length_map. apply impact_series_length.
  - intros values. case_bool_decide as Hpos; simpl; [|done].
    case_bool_decide as Husd; simpl; [done|]. intros [= <-].
    rewrite length_map. split; [|done].
    destruct Hl as [->|Hl]; [simpl in Hpos; lia|done].
Qed.

End MainChartFacts.

Lemma chart_lines_start_together_witness :
  closes2 !! 0 = Some (fp (day 0) 100%float) /\
  table_gap !! 0 = Some (RateEntry.mk (day 0) 10%float) /\
  exists chart rates values,
    renderMainChart utc rates_usd_nok table_gap closes2 "NOK" (indexConfig !! "^GSPC")
    = Normal (chart, rates) /\
    Chart.noCurrencyChanges chart = Some values /\
    Chart.index chart !! 0 = Some 1000%float /\
    values !! 0 = Some 1000%float /\
    length values = length (Chart.index chart).
Proof.
  assert (Hp : closes2 !! 0 = Some (fp (day 0) 100%float)) by reflexivity.
  assert (He : table_gap !! 0 = Some (RateEntry.mk (day 0) 10%float)) by reflexivity.
  split; [exact Hp|]. split; [exact He|].
  apply (chart_lines_start_together utc rates_usd_nok table_gap closes2
           (fp (day 0) 100%float) 0 (RateEntry.mk (day 0) 10%float)
           "S&P 500" "1957-03-04" Hp He);
    [reflexivity|].
  intros j e' Hj. lia.
Defined.

Lemma chart_series_shape_witness :
  closes2 <> [] /\
  (exists chart rates,
     renderMainChart utc rates_usd_nok table_gap closes2 "NOK" (indexConfig !! "^GSPC")
     = Normal (chart, rates) /\
     chart = Chart.mk [day 0; day 1] [1000%float; 1100%float]
                      (Some [0%float; 90%float]) (Some [1000%float; 1100%float]) /\
     (forall values, Chart.currencyImpact chart = Some values ->
        length values = length closes2) /\
     (forall values, Chart.noCurrencyChanges chart = Some values ->
        length values = length closes2 /\ "NOK" <> "USD")) /\
  indexConfig !! "^FTSE" = None /\
  renderMainChart utc rates_usd_nok table_gap closes2 "NOK" (indexConfig !! "^FTSE")
  = TypeError.
Proof.
  assert (Hdata : closes2 <> []) by discriminate.
  destruct (chart_series_shape utc rates_usd_nok table_gap closes2 "NOK" Hdata)
    as [Hconfigured Hmissing].
  split; [exact Hdata|]. split; [|split; [reflexivity|exact Hmissing]].
  destruct (Hconfigured sp500) as (chart & rates & Hrun & _ & _ & Himpact & Hline).
  exists chart, rates. split; [exact Hrun|]. split; [|split; [exact Himpact|exact Hline]].
  apply (f_equal (fun result => match result with
                                | Normal (shown, _) => shown
                                | TypeError => chart
                                end)) in Hrun.
  symmetry. exact Hrun.
Defined.

(** ** Latest prices *)

Lemma float_truthy_not_zero (x : float) :
  float_truthy x = true ->
  PrimFloat.eqb x 0%float = false /\ PrimFloat.is_nan x = false.
Proof.
  unfold float_truthy. change PrimFloat.zero with 0%float.
  destruct (PrimFloat.eqb x 0%float), (PrimFloat.is_nan x); simpl; auto; discriminate.
Qed.

(** X25. A market overview entry is built only from a current and a previous
    price that are both numbers other than 0 and [NaN]; its percentage is
    the change divided by that previous price, so it is never the quotient
    of a division by zero. The adjusted close is used, and the quoted close
    only where the adjusted one is missing or 0. *)
Theorem overview_entry_has_prices (adjClose closes : list (option float))
    (price change changePercent : float) :
  overviewEntry adjClose closes = Some (price, change, changePercent) ->
  exists previous,
    orElse (lastElement adjClose) (lastElement closes) = Some price /\
    orElse (secondToLastElement adjClose) (secondToLastElement closes) = Some previous /\
    PrimFloat.eqb price 0%float = false /\ PrimFloat.is_nan price = false /\
    PrimFloat.eqb previous 0%float = false /\ PrimFloat.is_nan previous = false /\
    change = (price - previous)%float /\
    changePercent = ((price - previous) / previous * float_lit 100)%float.
Proof.
  unfold overviewEntry.
  destruct (orElse (lastElement adjClose) (lastElement closes)) as [current|]; [|done].
  destruct (orElse (secondToLastElement adjClose) (secondToLastElement closes))
    as [previous|]; [|done].
  destruct (float_truthy current) eqn:Hc; [|done].
  destruct (float_truthy previous) eqn:Hp; [|done].
  simpl. intros [= <- <- <-]. exists previous.
  destruct (float_truthy_not_zero _ Hc), (float_truthy_not_zero _ Hp).
  repeat split; done.
Qed.

Lemma overview_entry_has_prices_witness :
  overviewEntry [Some 101%float; Some 0%float] [Some 100%float; Some 102%float]
  = Some (102%float, 1%float, (1 / 101 * 100)%float) /\
  exists previous,
    orElse (lastElement [Some 101%float; Some 0%float])
           (lastElement [Some 100%float; Some 102%float]) = Some 102%float /\
    orElse (secondToLastElement [Some 101%float; Some 0%float])
           (secondToLastElement [Some 100%float; Some 102%float]) = Some previous /\
    PrimFloat.eqb previous 0%float = false.
Proof.
  assert (Hentry : overviewEntry [Some 101%float; Some 0%float]
                     [Some 100%float; Some 102%float]
                   = Some (102%float, 1%float, (1 / 101 * 100)%float)) by reflexivity.
  split; [exact Hentry|].
  destruct (overview_entry_has_prices _ _ _ _ _ Hentry)
    as (previous & Hcur & Hprev & _ & _ & Hzero & _).
  exists previous. split; [exact Hcur|]. split; [exact Hprev|exact Hzero].
Defined.

(** ** The live update and the series converted before it *)

Section LiveUpdateFacts.
Context (localTZA : Z -> Z).
Context (currencyRates : gmap string float).
Context (historicalRates : list (RateEntry.t float)).

Implicit Types (h : list (@object float)) (points : list (PricePoint.t float)).
Implicit Types (elems : list ref).










End LiveUpdateFacts.

